(** * Template processor of the segment-tracking-demo generator

    A shallow embedding of [lib/template-processor.js]: the functions
    [getNestedValue], [replaceSimpleVariables] and [replaceVariables],
    together with the part of the JavaScript runtime they rely on
    (property access, string conversion, [String.prototype.split] and
    [String.prototype.replace] with the three global regular expressions
    of the file); of [lib/validators.js]: the five validators and
    [sanitizePath]; and of [lib/ai-generator.js]: [generateDemoConfig],
    whose result is the data the templates are rendered with.  The
    functions that read and write files and the prompts of the entry point
    are not modelled.

    Modelling conventions.
    - A JavaScript string is a [string]; the three regular expressions only
      tell ASCII characters apart.
    - A number is a safe integer [z : Z], at most [MAX_SAFE_INTEGER] in
      absolute value, which the engine prints as its decimal numeral;
      fractions, [NaN] and the infinities are no values of the model, and
      printing an integer beyond the safe ones answers [Beyond].
    - A mapping is the list of its own properties, as an object literal
      or JSON gives it, and inherits from [Object.prototype].  A property
      access reads the own property of the name or else the prototype
      chain.  On a mapping the chain holds the methods of
      [Object.prototype], which are found as built-in functions
      ([VFunction], with the text that Node prints for them), and the
      accessor [__proto__], which answers [Beyond]; every other name is
      [undefined].  On a string, a number, a boolean or an array, whose
      methods depend on the version of the language, a name made of
      letters and underscores answers [Beyond] and every other name
      [undefined].  The properties of a built-in function answer
      [Beyond].  The built-in prototypes are taken as the language defines
      them, with no property added to them.
    - The members of the data are never functions.  The string conversion
      of a mapping consults [toString] and [valueOf], its own or the
      inherited ones, as [ToString] describes.
    - A thrown [TypeError] is the [TypeError] result.  [OutOfFuel] is the
      exhaustion of the budget of a scan; the budget taken from the length
      of the scanned string is never exhausted ([replace_loop_fuel],
      [replace_at_avoids]).  [Beyond] says that the evaluation has left
      the model; a statement that concludes a returned string or a throw
      holds of the code, one whose conclusion allows [Beyond] says nothing
      of the code there. *)

From Stdlib Require Import String Ascii List ZArith NArith Bool Lia.
From Stdlib Require Import DecimalString DecimalN DecimalZ.
Import ListNotations.

Local Open Scope list_scope.
Local Open Scope string_scope.

(* ================================================================= *)
(** ** Results: normal completion or a thrown exception

    [Beyond] is the answer of the model where the engine answers with
    something that is not a value of the model: a property that a built-in
    prototype provides (a built-in function, a prototype object), or the
    text of a number outside the safe integers.  The evaluation stops
    there, and nothing is said of what the code does next. *)

Inductive result (A : Type) : Type :=
| Ok (a : A)
| TypeError
| OutOfFuel
| Beyond.

Arguments Ok {A} a.
Arguments TypeError {A}.
Arguments OutOfFuel {A}.
Arguments Beyond {A}.

Definition bind {A B : Type} (r : result A) (k : A -> result B) : result B :=
  match r with
  | Ok a => k a
  | TypeError => TypeError
  | OutOfFuel => OutOfFuel
  | Beyond => Beyond
  end.

Notation "x <- r ;; k" := (bind r (fun x => k))
  (at level 61, r at next level, right associativity).

(* ================================================================= *)
(** ** Strings *)

Definition ascii_in (lo hi c : ascii) : bool :=
  (N.leb (N_of_ascii lo) (N_of_ascii c) && N.leb (N_of_ascii c) (N_of_ascii hi))%bool.

Definition is_digit (c : ascii) : bool := ascii_in "0" "9" c.

(** The class [\w] of a regular expression without the [u] and [i] flags. *)
Definition is_word (c : ascii) : bool :=
  (ascii_in "a" "z" c || ascii_in "A" "Z" c || is_digit c || Ascii.eqb c "_")%bool.

(** The class [[\w.]]. *)
Definition is_path_char (c : ascii) : bool :=
  (is_word c || Ascii.eqb c ".")%bool.

(** Longest prefix of [s] whose characters satisfy [p], and what follows. *)
Fixpoint span (p : ascii -> bool) (s : string) : string * string :=
  match s with
  | EmptyString => ("", "")
  | String c s' =>
      if p c then let (a, b) := span p s' in (String c a, b)
      else ("", s)
  end.

Fixpoint forallb_string (p : ascii -> bool) (s : string) : bool :=
  match s with
  | EmptyString => true
  | String c s' => (p c && forallb_string p s')%bool
  end.

Fixpoint drop (n : nat) (s : string) : string :=
  match n, s with
  | O, _ => s
  | S n', String _ s' => drop n' s'
  | S _, EmptyString => ""
  end.

(** First occurrence of [pat] in [s]: the text before it and the text
    after it. *)
Fixpoint find_sub (pat s : string) : option (string * string) :=
  if prefix pat s then Some ("", drop (String.length pat) s)
  else match s with
       | EmptyString => None
       | String c s' =>
           match find_sub pat s' with
           | Some (a, b) => Some (String c a, b)
           | None => None
           end
       end.

(** [occurs pat s]: [pat] is a substring of [s]. *)
Definition occurs (pat s : string) : bool :=
  match find_sub pat s with Some _ => true | None => false end.

(** [lacks c s]: the character [c] does not occur in [s]. *)
Definition lacks (c : ascii) (s : string) : bool :=
  forallb_string (fun d => negb (Ascii.eqb d c)) s.

(** No section start marker begins in [s]. *)
Definition no_section_start (s : string) : bool := negb (occurs "{{#" s).

(** [String.prototype.split] with a one-character separator. *)
Fixpoint split (sep : ascii) (s : string) : list string :=
  match s with
  | EmptyString => [""]
  | String c s' =>
      if Ascii.eqb c sep then "" :: split sep s'
      else match split sep s' with
           | h :: t => String c h :: t
           | [] => [String c ""]
           end
  end.

(** [Array.prototype.join] with the empty separator, on strings. *)
Fixpoint join_empty (l : list string) : string :=
  match l with
  | [] => ""
  | x :: rest => x ++ join_empty rest
  end.

(* ================================================================= *)
(** ** Values of the Data Context

    [VFunction name] is a built-in function, as a lookup may find in
    [Object.prototype]; the data itself holds none. *)

#[local] Unset Elimination Schemes.

Inductive value : Type :=
| VUndefined
| VNull
| VBool (b : bool)
| VNum (z : Z)
| VStr (s : string)
| VArr (items : list value)
| VObj (props : list (string * value))
| VFunction (name : string).

#[local] Set Elimination Schemes.

Definition is_undefined (v : value) : bool :=
  match v with VUndefined => true | _ => false end.

(** [Array.isArray]. *)
Definition isArray (v : value) : bool :=
  match v with VArr _ => true | _ => false end.

(** [typeof v === 'object']: objects, arrays and [null]. *)
Definition typeof_object (v : value) : bool :=
  match v with VObj _ | VArr _ | VNull => true | _ => false end.

(** Own property of an object. *)
Fixpoint own (key : string) (props : list (string * value)) : option value :=
  match props with
  | [] => None
  | (k, v) :: rest => if String.eqb k key then Some v else own key rest
  end.

Definition has_own (key : string) (props : list (string * value)) : bool :=
  match own key props with Some _ => true | None => false end.

(** [Number.MAX_SAFE_INTEGER], two to the power 53 less one: the integers
    up to it in absolute value are numbers of the language, each of them
    exactly. *)
Definition MAX_SAFE_INTEGER : Z := 9007199254740991.

Definition is_safe_integer (z : Z) : bool :=
  Z.leb (Z.abs z) MAX_SAFE_INTEGER.

(** The decimal numeral of an integer, with a minus sign when negative. *)
Definition numeral (z : Z) : string :=
  NilEmpty.string_of_int (Z.to_int z).

(** Number::toString on an integer: a safe integer is printed as its
    decimal numeral (the exponent form starts at ten to the power 21). *)
Definition NumberToString (z : Z) : result string :=
  if is_safe_integer z then Ok (numeral z) else Beyond.

(** The properties of [Object.prototype], which every mapping written as
    an object literal or read from JSON inherits: the methods of the
    language standard and of its annex for web browsers, and the accessor
    [__proto__]. *)
Definition objectPrototypeMethods : list string :=
  ["constructor"; "hasOwnProperty"; "isPrototypeOf"; "propertyIsEnumerable";
   "toLocaleString"; "toString"; "valueOf";
   "__defineGetter__"; "__defineSetter__";
   "__lookupGetter__"; "__lookupSetter__"].

Definition inherited_by_object (key : string) : bool :=
  (String.eqb key "__proto__"
   || existsb (String.eqb key) objectPrototypeMethods)%bool.

(** The name of the function that [Object.prototype] holds at [key]: the
    key itself, except that [constructor] is [Object]. *)
Definition function_name (key : string) : string :=
  if String.eqb key "constructor" then "Object" else key.

Definition is_letter (c : ascii) : bool :=
  (ascii_in "a" "z" c || ascii_in "A" "Z" c || Ascii.eqb c "_")%bool.

(** The prototypes of strings, numbers, booleans and arrays hold many
    methods, more of them in later versions of the language; their names
    are made of letters and underscores.  A name of that form may be one of
    them, any other name is none. *)
Definition method_like (key : string) : bool :=
  (negb (String.eqb key "") && forallb_string is_letter key)%bool.

(** An array index: the decimal numeral of a natural number, with no
    leading zero. *)
Definition index_of_key (key : string) : option nat :=
  match NilEmpty.uint_of_string key with
  | Some u =>
      let n := N.of_uint u in
      if String.eqb (NilEmpty.string_of_uint (N.to_uint n)) key
      then Some (N.to_nat n) else None
  | None => None
  end.

(** ToString.  The text of a built-in function is the one that Node
    gives it.  The members of the data are never callable, so an object
    with an own [toString] has no usable conversion method: its own
    [valueOf], if any, is not callable either, and the inherited one returns
    the object itself.  Without an own [toString] the inherited one answers
    ["[object Object]"].  An array is joined with commas, [undefined] and
    [null] elements giving the empty string. *)
Fixpoint ToString (v : value) : result string :=
  match v with
  | VUndefined => Ok "undefined"
  | VNull => Ok "null"
  | VBool true => Ok "true"
  | VBool false => Ok "false"
  | VNum z => NumberToString z
  | VStr s => Ok s
  | VArr items =>
      (fix join (l : list value) : result string :=
         match l with
         | [] => Ok ""
         | x :: rest =>
             a <- match x with
                  | VUndefined | VNull => Ok ""
                  | _ => ToString x
                  end ;;
             match rest with
             | [] => Ok a
             | _ :: _ => b <- join rest ;; Ok (a ++ "," ++ b)
             end
         end) items
  | VObj props =>
      if has_own "toString" props then TypeError else Ok "[object Object]"
  | VFunction name => Ok ("function " ++ name ++ "() { [native code] }")
  end.

(** What [v[key]] is when [key] is no own property of a string, a number,
    a boolean or an array: [undefined] unless the prototype chain may hold
    the name. *)
Definition not_own (inherited : bool) : result value :=
  if inherited then Beyond else Ok VUndefined.

(** What [v[key]] is when [key] is no own property of a mapping: the
    method of [Object.prototype] of that name, else [undefined].  The
    accessor [__proto__] answers a prototype object, which is no value of
    the model. *)
Definition inherited_from_object (key : string) : result value :=
  if String.eqb key "__proto__" then Beyond
  else if existsb (String.eqb key) objectPrototypeMethods
       then Ok (VFunction (function_name key))
       else Ok VUndefined.

(** Property access [v[key]]: the own property of that name, else the one
    of the prototype chain.  [null] and [undefined] have no properties and
    the access throws.  The properties of a built-in function are not
    modelled. *)
Definition Get (v : value) (key : string) : result value :=
  match v with
  | VUndefined | VNull => TypeError
  | VBool _ | VNum _ => not_own (method_like key)
  | VStr s =>
      if String.eqb key "length" then Ok (VNum (Z.of_nat (String.length s)))
      else match index_of_key key with
           | Some i =>
               match String.get i s with
               | Some c => Ok (VStr (String c ""))
               | None => Ok VUndefined
               end
           | None => not_own (method_like key)
           end
  | VArr items =>
      if String.eqb key "length" then Ok (VNum (Z.of_nat (List.length items)))
      else match index_of_key key with
           | Some i =>
               match nth_error items i with
               | Some x => Ok x
               | None => Ok VUndefined
               end
           | None => not_own (method_like key)
           end
  | VObj props =>
      match own key props with
      | Some x => Ok x
      | None => inherited_from_object key
      end
  | VFunction _ => Beyond
  end.

(* ================================================================= *)
(** ** [String.prototype.replace] with a global regular expression *)

Section GlobalReplace.

(** What a match captures. *)
Variable M : Type.

(** The regular expression tried at the head of a string: the captures,
    the matched text and the text after it. *)
Variable exec : string -> option (M * string * string).

(** What replaces a match, given the text before it, the captures, the
    matched text and the text after it. *)
Variable replacer : string -> M -> string -> string -> result string.

(** Left to right: at a position where the expression matches, the
    replacement is emitted and the scan resumes after the match;
    elsewhere the character is copied.  None of the three expressions
    matches the empty string. *)
Fixpoint replace_loop (fuel : nat) (before s : string) : result string :=
  match fuel with
  | O => OutOfFuel
  | S fuel' =>
      match s with
      | EmptyString => Ok ""
      | String c s' =>
          match exec s with
          | Some (m, matched, rest) =>
              r <- replacer before m matched rest ;;
              out <- replace_loop fuel' (before ++ matched) rest ;;
              Ok (r ++ out)
          | None =>
              out <- replace_loop fuel' (before ++ String c "") s' ;;
              Ok (String c out)
          end
      end
  end.

Definition replace_at (before s : string) : result string :=
  replace_loop (S (String.length s)) before s.

Definition replace_global (s : string) : result string :=
  replace_at "" s.

End GlobalReplace.

Arguments replace_loop {M} exec replacer fuel before s.
Arguments replace_at {M} exec replacer before s.
Arguments replace_global {M} exec replacer s.

(** [simplePattern = /\{\{([\w.]+)\}\}/g] tried at the head of [s]: two
    opening braces, the longest run of path characters, which must not be
    empty, and two closing braces.  A shorter run is followed by a path
    character, so backtracking finds no other match.  The capture is the
    path. *)
Definition simplePattern (s : string) : option (string * string * string) :=
  if prefix "{{" s then
    let (path, t) := span is_path_char (drop 2 s) in
    match path with
    | EmptyString => None
    | String _ _ =>
        if prefix "}}" t then Some (path, "{{" ++ path ++ "}}", drop 2 t)
        else None
    end
  else None.

(** [/\{\{\.\}\}/g] tried at the head of [s]: the self-reference, no
    capture. *)
Definition selfPattern (s : string) : option (unit * string * string) :=
  if prefix "{{.}}" s then Some (tt, "{{.}}", drop 5 s) else None.

(** [arrayPattern = /\{\{#(\w+)\}\}([\s\S]*?)\{\{\/\1\}\}/g] tried at the
    head of [s]: a start marker with a name of word characters (a shorter
    name is followed by a word character, not by the closing braces), the
    shortest body, and the end marker of the same name.  The captures are
    the name and the body. *)
Definition arrayPattern (s : string)
  : option ((string * string) * string * string) :=
  if prefix "{{#" s then
    let (name, t) := span is_word (drop 3 s) in
    match name with
    | EmptyString => None
    | String _ _ =>
        if prefix "}}" t then
          match find_sub ("{{/" ++ name ++ "}}") (drop 2 t) with
          | Some (inner, rest) =>
              Some ((name, inner),
                    "{{#" ++ name ++ "}}" ++ inner ++ "{{/" ++ name ++ "}}",
                    rest)
          | None => None
          end
        else None
    end
  else None.

(** GetSubstitution for an expression without capture groups: in the
    replacement text [$$] is a dollar, [$&] the match, [$`] the text before
    the match and [$'] the text after it; any other dollar stands for
    itself. *)
Fixpoint GetSubstitution (matched before after template : string) : string :=
  match template with
  | EmptyString => ""
  | String c t =>
      if Ascii.eqb c "$" then
        match t with
        | String d t' =>
            if Ascii.eqb d "$" then
              String "$" (GetSubstitution matched before after t')
            else if Ascii.eqb d "&" then
              matched ++ GetSubstitution matched before after t'
            else if Ascii.eqb d "`" then
              before ++ GetSubstitution matched before after t'
            else if Ascii.eqb d "'" then
              after ++ GetSubstitution matched before after t'
            else String c (GetSubstitution matched before after t)
        | EmptyString => String c ""
        end
      else String c (GetSubstitution matched before after t)
  end.

(** [array.map(f)], stopping at the first exception. *)
Fixpoint map_result {A B : Type} (f : A -> result B) (l : list A)
  : result (list B) :=
  match l with
  | [] => Ok []
  | x :: rest => y <- f x ;; ys <- map_result f rest ;; Ok (y :: ys)
  end.

(* ================================================================= *)
(** ** The template processor *)

(** The reducer [(current, key) =>
      current !== undefined ? current[key] : undefined]; an exception
    thrown by an earlier step ends the reduction. *)
Definition descend (current : result value) (key : string) : result value :=
  cur <- current ;;
  if is_undefined cur then Ok VUndefined else Get cur key.

(** [path.split('.').reduce(..., obj)] *)
Definition getNestedValue (obj : value) (path : string) : result value :=
  fold_left descend (split "." path) (Ok obj).

(** The callback [(match, path) => value !== undefined ? value : match]
    of [replaceSimpleVariables]; [replace] converts what it returns to a
    string. *)
Definition substitute (data : value) (matched path : string) : result string :=
  value <- getNestedValue data path ;;
  if is_undefined value then Ok matched else ToString value.

(** [template.replace(simplePattern, (match, path) => ...)] *)
Definition replaceSimpleVariables (template : string) (data : value)
  : result string :=
  replace_global simplePattern
    (fun (_ : string) path matched (_ : string) => substitute data matched path)
    template.

(** [innerTemplate.replace(/\{\{\.\}\}/g, item)]: the replacement value
    has already been converted to the string [rep]. *)
Definition replaceSelf (innerTemplate rep : string) : result string :=
  replace_global selfPattern
    (fun before _ matched after => Ok (GetSubstitution matched before after rep))
    innerTemplate.

(** The body of [array.map(item => ...)]: [replace] converts [item] to a
    string before it looks for a match. *)
Definition renderItem (innerTemplate : string) (item : value) : result string :=
  rep <- ToString item ;;
  itemResult <- replaceSelf innerTemplate rep ;;
  if typeof_object item then replaceSimpleVariables itemResult item
  else Ok itemResult.

(** The callback [(match, arrayName, innerTemplate) => ...] of the first
    [replace]: the empty string unless [Array.isArray(array)]. *)
Definition expandSection (data : value) (arrayName innerTemplate : string)
  : result string :=
  array <- getNestedValue data arrayName ;;
  match array with
  | VArr items =>
      parts <- map_result (renderItem innerTemplate) items ;;
      Ok (join_empty parts)
  | _ => Ok ""
  end.

(** The first pass of [replaceVariables]. *)
Definition expandSections (template : string) (data : value) : result string :=
  replace_global arrayPattern
    (fun (_ : string) m (_ _ : string) => expandSection data (fst m) (snd m))
    template.

Definition replaceVariables (template : string) (data : value) : result string :=
  result <- expandSections template data ;;
  replaceSimpleVariables result data.

(* ================================================================= *)
(** ** Vocabulary of the statements *)

Definition is_Ok {A : Type} (r : result A) : Prop := exists a, r = Ok a.

(** Nothing was thrown: the evaluation returned, or it stopped at the
    border of the model. *)
Definition calm {A : Type} (r : result A) : Prop :=
  match r with
  | Ok _ | Beyond => True
  | TypeError | OutOfFuel => False
  end.

(** The same, with a property of what was returned. *)
Definition calm_with {A : Type} (P : A -> Prop) (r : result A) : Prop :=
  match r with
  | Ok a => P a
  | Beyond => True
  | TypeError | OutOfFuel => False
  end.

(** A match found in [v] seen from [v ++ tail]. *)
Definition lift_exec {M : Type} (tail : string)
           (o : option (M * string * string)) : option (M * string * string) :=
  match o with
  | Some (m, matched, rest) => Some (m, matched, rest ++ tail)
  | None => None
  end.

(** The end marker of a section. *)
Definition closer (name : string) : string := "{{/" ++ name ++ "}}".









(** The Data Context of the specification: a tree of strings, numbers,
    booleans, mappings and sequences. *)
Fixpoint data_context (v : value) : bool :=
  match v with
  | VUndefined | VNull => false
  | VBool _ | VNum _ | VStr _ => true
  | VArr items => forallb data_context items
  | VObj props => forallb (fun kv => data_context (snd kv)) props
  | VFunction _ => false
  end.

(** A Data Context in which no mapping has an own property named
    [toString]. *)
Fixpoint convertible_context (v : value) : bool :=
  match v with
  | VUndefined | VNull => false
  | VBool _ | VNum _ | VStr _ => true
  | VArr items => forallb convertible_context items
  | VObj props =>
      (negb (has_own "toString" props)
       && forallb (fun kv => convertible_context (snd kv)) props)%bool
  | VFunction _ => false
  end.


(** Strings, booleans and safe integers, and their text. *)
Definition is_scalar (v : value) : bool :=
  match v with
  | VBool _ | VStr _ => true
  | VNum z => is_safe_integer z
  | _ => false
  end.

Definition scalar_text (v : value) : string :=
  match v with
  | VBool true => "true"
  | VBool false => "false"
  | VNum z => numeral z
  | VStr s => s
  | _ => ""
  end.

(** The key under which an array holds its element number [i]. *)
Definition key_of_index (i : nat) : string :=
  NilEmpty.string_of_uint (N.to_uint (N.of_nat i)).

(** Markers, following the grammar of the specification: a placeholder is
    [{{] + path + [}}], a section start [{{#] + identifier + [}}], a
    section end [{{/] + identifier + [}}].  A path is taken in the widest
    sense, any non-empty run of identifier characters and dots. *)
Definition delimited (open : string) (p : ascii -> bool) (s : string) : bool :=
  (prefix open s
   && let (body, t) := span p (drop (String.length open) s) in
      negb (String.eqb body "") && prefix "}}" t)%bool.

Definition placeholder_at (s : string) : bool := delimited "{{" is_path_char s.
Definition section_start_at (s : string) : bool := delimited "{{#" is_word s.
Definition section_end_at (s : string) : bool := delimited "{{/" is_word s.

Fixpoint has_marker (s : string) : bool :=
  match s with
  | EmptyString => false
  | String _ s' =>
      (placeholder_at s || section_start_at s || section_end_at s
       || has_marker s')%bool
  end.

(* ================================================================= *)
(** ** The validators ([lib/validators.js])

    In these functions a character of a [string] stands for a code unit
    below 256: the white space of [trim] and of [\s] then is the tabulation
    to carriage return range, the space and the no-break space, and
    [toLowerCase] acts on the ASCII and the Latin-1 capital letters. *)

Definition code_in (lo hi : N) (c : ascii) : bool :=
  (N.leb lo (N_of_ascii c) && N.leb (N_of_ascii c) hi)%bool.

(** WhiteSpace and LineTerminator. *)
Definition is_space (c : ascii) : bool :=
  (code_in 9 13 c || code_in 32 32 c || code_in 160 160 c)%bool.

(** The class of the first [replace] of [validateCompanyName]: the nine
    characters less-than, greater-than, colon, double quote, slash,
    backslash, bar, question mark and star. *)
Definition is_unsafe (c : ascii) : bool :=
  (Ascii.eqb c "<" || Ascii.eqb c ">" || Ascii.eqb c ":" || Ascii.eqb c "034"
   || Ascii.eqb c "/" || Ascii.eqb c "\" || Ascii.eqb c "|" || Ascii.eqb c "?"
   || Ascii.eqb c "*")%bool.

(** The class [[a-zA-Z0-9]]. *)
Definition is_alnum (c : ascii) : bool :=
  (ascii_in "a" "z" c || ascii_in "A" "Z" c || is_digit c)%bool.

Definition is_slash (c : ascii) : bool := Ascii.eqb c "/".

Definition is_upper (c : ascii) : bool :=
  (code_in 65 90 c || code_in 192 214 c || code_in 216 222 c)%bool.

Definition lower_char (c : ascii) : ascii :=
  if is_upper c then ascii_of_N (N_of_ascii c + 32) else c.

(** [String.prototype.toLowerCase]. *)
Fixpoint toLowerCase (s : string) : string :=
  match s with
  | EmptyString => ""
  | String c s' => String (lower_char c) (toLowerCase s')
  end.

Definition trimStart (s : string) : string := snd (span is_space s).

Fixpoint trimEnd (s : string) : string :=
  match s with
  | EmptyString => ""
  | String c s' =>
      match trimEnd s' with
      | EmptyString => if is_space c then "" else String c ""
      | String d t => String c (String d t)
      end
  end.

(** [String.prototype.trim]. *)
Definition trim (s : string) : string := trimEnd (trimStart s).

(** That class as a global expression, tried at the head of [s]: one
    unsafe character. *)
Definition unsafePattern (s : string) : option (unit * string * string) :=
  match s with
  | String c rest => if is_unsafe c then Some (tt, String c "", rest) else None
  | EmptyString => None
  end.

(** A greedy run [c+] of the class [p] tried at the head of [s]: the
    longest run, which must not be empty. *)
Definition runPattern (p : ascii -> bool) (s : string)
  : option (unit * string * string) :=
  let (run, rest) := span p s in
  match run with
  | EmptyString => None
  | String _ _ => Some (tt, run, rest)
  end.

(** [/\s+/g] and [/\/+/g]. *)
Definition spacesPattern : string -> option (unit * string * string) :=
  runPattern is_space.
Definition slashesPattern : string -> option (unit * string * string) :=
  runPattern is_slash.

(** [/\.\./g] tried at the head of [s]. *)
Definition dotdotPattern (s : string) : option (unit * string * string) :=
  if prefix ".." s then Some (tt, "..", drop 2 s) else None.

(** [s.replace(pattern, replacement)] for a global expression without
    capture group and a replacement that is a string. *)
Definition replaceString {M : Type}
           (pattern : string -> option (M * string * string))
           (replacement s : string) : result string :=
  replace_global pattern
    (fun before _ matched after =>
       Ok (GetSubstitution matched before after replacement))
    s.

(** [/^[a-zA-Z0-9]+$/.test(s)]: without the [m] flag [^] and [$] are the
    two ends of [s]. *)
Definition alnumTest (s : string) : bool :=
  let (run, rest) := span is_alnum s in
  (negb (String.eqb run "") && String.eqb rest "")%bool.

(** The objects the validators return. *)
Definition rejected (error : string) : value :=
  VObj [("valid", VBool false); ("error", VStr error)].

Definition accepted : value :=
  VObj [("valid", VBool true); ("error", VNull)].

Definition rejectedName (error : string) : value :=
  VObj [("valid", VBool false); ("error", VStr error); ("sanitized", VNull)].

Definition acceptedName (sanitized : string) : value :=
  VObj [("valid", VBool true); ("error", VNull);
        ("sanitized", VStr sanitized)].

(** [!s || s.trim().length === 0] for a string [s]. *)
Definition blank (s : string) : bool :=
  (String.eqb s "" || Nat.eqb (String.length (trim s)) 0)%bool.

Definition validateCompanyName (companyName : string) : result value :=
  if blank companyName then Ok (rejectedName "Company name cannot be empty")
  else
    unsafeRemoved <- replaceString unsafePattern "" (trim companyName) ;;
    hyphenated <- replaceString spacesPattern "-" unsafeRemoved ;;
    let sanitized := toLowerCase hyphenated in
    if Nat.eqb (String.length sanitized) 0
    then Ok (rejectedName "Company name contains only invalid characters")
    else Ok (acceptedName sanitized).

Definition validateWriteKey (writeKey : string) : result value :=
  if blank writeKey then Ok (rejected "Write Key cannot be empty")
  else
    let trimmed := trim writeKey in
    if negb (alnumTest trimmed)
    then Ok (rejected "Write Key should only contain letters and numbers")
    else Ok accepted.

Definition validateApiToken (apiToken : string) : result value :=
  if blank apiToken then Ok (rejected "Profiles API Token cannot be empty")
  else Ok accepted.

Definition validateSpaceId (spaceId : string) : result value :=
  if blank spaceId then Ok (rejected "Space ID cannot be empty")
  else
    let trimmed := trim spaceId in
    if negb (prefix "spa_" trimmed)
    then Ok (rejected ("Space ID should start with "
                       ++ String "034" "spa_" ++ String "034" ""))
    else Ok accepted.

Definition validateIndustry (industry : string) : result value :=
  if blank industry then Ok (rejected "Industry cannot be empty")
  else Ok accepted.

Definition sanitizePath (path : string) : result string :=
  if String.eqb path "" then Ok ""
  else
    noTraversal <- replaceString dotdotPattern "" path ;;
    normalized <- replaceString slashesPattern "/" noTraversal ;;
    Ok (trim normalized).

(** What the replacements of the validators compute, written by
    recursion on the string: the characters of a class removed, the runs of
    a class replaced, the pairs of dots removed. *)
Fixpoint remove (p : ascii -> bool) (s : string) : string :=
  match s with
  | EmptyString => ""
  | String c s' => if p c then remove p s' else String c (remove p s')
  end.

Fixpoint squeeze (p : ascii -> bool) (rep s : string) : string :=
  match s with
  | EmptyString => ""
  | String c s' =>
      if p c then
        match s' with
        | String d _ =>
            if p d then squeeze p rep s' else rep ++ squeeze p rep s'
        | EmptyString => rep
        end
      else String c (squeeze p rep s')
  end.

Fixpoint removeDotDot (s : string) : string :=
  match s with
  | EmptyString => ""
  | String c s' =>
      match s' with
      | String d s'' =>
          if (Ascii.eqb c "." && Ascii.eqb d ".")%bool then removeDotDot s''
          else String c (removeDotDot s')
      | EmptyString => String c ""
      end
  end.

(** The first character of [s] is not in the class [p]. *)
Definition stops (p : ascii -> bool) (s : string) : bool :=
  match s with
  | EmptyString => true
  | String c _ => negb (p c)
  end.

(** Every character of [s] is outside the class [p]. *)
Definition free_of (p : ascii -> bool) (s : string) : bool :=
  forallb_string (fun c => negb (p c)) s.

(** The folder-safe form [validateCompanyName] computes: trimmed, unsafe
    characters removed, runs of white space turned into one hyphen, in
    lower case. *)
Definition slug (companyName : string) : string :=
  toLowerCase (squeeze is_space "-" (remove is_unsafe (trim companyName))).

(** The clean form [sanitizePath] computes. *)
Definition cleanPath (path : string) : string :=
  trim (squeeze is_slash "/" (removeDotDot path)).

(** The first character of [s] is [c]. *)
Definition head_is (c : ascii) (s : string) : bool :=
  match s with
  | EmptyString => false
  | String d _ => Ascii.eqb d c
  end.

(* ================================================================= *)
(** ** The configuration ([lib/ai-generator.js]) *)

(** [generateDemoConfig]: the five inputs copied, the generated
    collections left empty, the three fixed colours. *)
Definition generateDemoConfig (inputs : value) : result value :=
  companyName <- Get inputs "companyName" ;;
  industry <- Get inputs "industry" ;;
  writeKey <- Get inputs "writeKey" ;;
  apiToken <- Get inputs "apiToken" ;;
  spaceId <- Get inputs "spaceId" ;;
  Ok (VObj [("companyName", companyName);
            ("industry", industry);
            ("writeKey", writeKey);
            ("apiToken", apiToken);
            ("spaceId", spaceId);
            ("products", VArr []);
            ("events", VObj []);
            ("traits", VObj []);
            ("navigation", VArr []);
            ("messaging", VObj []);
            ("colors", VObj [("primary", VStr "#6B8CAE");
                             ("accent", VStr "#52BD95");
                             ("dark", VStr "#2d3748")])]).

(** The inputs the configuration copies and the collections it leaves
    empty. *)
Definition copiedFields : list string :=
  ["companyName"; "industry"; "writeKey"; "apiToken"; "spaceId"].

Definition generatedCollections : list string :=
  ["products"; "events"; "traits"; "navigation"; "messaging"].

(** [n] copies of [s]. *)
Fixpoint repeat_string (n : nat) (s : string) : string :=
  match n with
  | O => ""
  | S n' => s ++ repeat_string n' s
  end.

(* ================================================================= *)
(** ** Induction on values *)

Section ValueInd.

Variable P : value -> Prop.
Hypothesis Hundef : P VUndefined.
Hypothesis Hnull : P VNull.
Hypothesis Hbool : forall b, P (VBool b).
Hypothesis Hnum : forall z, P (VNum z).
Hypothesis Hstr : forall s, P (VStr s).
Hypothesis Harr : forall items, Forall P items -> P (VArr items).
Hypothesis Hobj : forall props,
    Forall (fun kv => P (snd kv)) props -> P (VObj props).
Hypothesis Hfun : forall name, P (VFunction name).

Fixpoint value_ind (v : value) : P v :=
  match v with
  | VUndefined => Hundef
  | VNull => Hnull
  | VBool b => Hbool b
  | VNum z => Hnum z
  | VStr s => Hstr s
  | VArr items =>
      Harr items
           ((fix go (l : list value) : Forall P l :=
               match l with
               | [] => Forall_nil _
               | x :: r => Forall_cons x (value_ind x) (go r)
               end) items)
  | VObj props =>
      Hobj props
           ((fix go (l : list (string * value))
              : Forall (fun kv => P (snd kv)) l :=
               match l with
               | [] => Forall_nil _
               | kv :: r => Forall_cons kv (value_ind (snd kv)) (go r)
               end) props)
  | VFunction name => Hfun name
  end.

End ValueInd.

(* ================================================================= *)
(** ** Facts about strings *)

Lemma append_assoc (a b c : string) : (a ++ b) ++ c = a ++ (b ++ c).
Proof. induction a as [|x a IH]; simpl; [reflexivity | now rewrite IH]. Qed.

Lemma append_nil_r (a : string) : a ++ "" = a.
Proof. induction a as [|x a IH]; simpl; [reflexivity | now rewrite IH]. Qed.

Lemma length_append (a b : string) :
  String.length (a ++ b) = String.length a + String.length b.
Proof. induction a as [|x a IH]; simpl; [reflexivity | now rewrite IH]. Qed.

Lemma prefix_drop (p s : string) :
  prefix p s = true -> s = p ++ drop (String.length p) s.
Proof.
  revert s; induction p as [|x p IH]; intros s H.
  - reflexivity.
  - destruct s as [|y s]; simpl in H; [discriminate|].
    destruct (ascii_dec x y) as [->|]; [|discriminate].
    simpl. f_equal. now apply IH.
Qed.

Lemma prefix_nil (s : string) : prefix "" s = true.
Proof. now destruct s. Qed.

Lemma prefix_append (p s : string) : prefix p (p ++ s) = true.
Proof.
  induction p as [|x p IH]; simpl.
  - now destruct s.
  - destruct (ascii_dec x x); [assumption | congruence].
Qed.

Lemma drop_append (p s : string) : drop (String.length p) (p ++ s) = s.
Proof. induction p as [|x p IH]; simpl; [reflexivity | assumption]. Qed.

Lemma span_append (p : ascii -> bool) (s a b : string) :
  span p s = (a, b) -> s = a ++ b.
Proof.
  revert a b; induction s as [|c s IH]; simpl; intros a b H.
  - now inversion H.
  - destruct (p c).
    + destruct (span p s) as [a' b'] eqn:E. inversion H; subst.
      simpl. f_equal. now apply IH.
    + now inversion H.
Qed.

Lemma span_forallb (p : ascii -> bool) (s a b : string) :
  span p s = (a, b) -> forallb_string p a = true.
Proof.
  revert a b; induction s as [|c s IH]; simpl; intros a b H.
  - now inversion H.
  - destruct (p c) eqn:Ec.
    + destruct (span p s) as [a' b'] eqn:E. inversion H; subst.
      simpl. rewrite Ec. now apply (IH a' b).
    + now inversion H.
Qed.

(** A run of [p]-characters followed by a character outside [p] is what
    [span] takes. *)
Lemma span_run (p : ascii -> bool) (a : string) (c : ascii) (rest : string) :
  forallb_string p a = true -> p c = false ->
  span p (a ++ String c rest) = (a, String c rest).
Proof.
  intros Ha Hc. induction a as [|x a IH]; simpl.
  - now rewrite Hc.
  - simpl in Ha. apply andb_prop in Ha as [Hx Ha].
    rewrite Hx, (IH Ha). reflexivity.
Qed.

Lemma find_sub_eq (pat s : string) :
  find_sub pat s =
  if prefix pat s then Some ("", drop (String.length pat) s)
  else match s with
       | EmptyString => None
       | String c s' =>
           match find_sub pat s' with
           | Some (a, b) => Some (String c a, b)
           | None => None
           end
       end.
Proof. destruct s; reflexivity. Qed.

Lemma find_sub_sound (pat s a b : string) :
  find_sub pat s = Some (a, b) -> s = a ++ pat ++ b.
Proof.
  revert a b; induction s as [|c s IH]; intros a b H;
    rewrite find_sub_eq in H.
  - destruct (prefix pat "") eqn:E; [|discriminate].
    inversion H; subst. now apply prefix_drop.
  - destruct (prefix pat (String c s)) eqn:E.
    + inversion H; subst. now apply prefix_drop.
    + destruct (find_sub pat s) as [[a' b']|] eqn:F; [|discriminate].
      inversion H; subst. simpl. f_equal. now apply IH.
Qed.

Lemma occurs_cons pat c s :
  occurs pat (String c s) = false ->
  prefix pat (String c s) = false /\ occurs pat s = false.
Proof.
  unfold occurs. rewrite find_sub_eq.
  destruct (prefix pat (String c s)); [discriminate|].
  destruct (find_sub pat s) as [[a b]|]; [discriminate|]. now split.
Qed.

Lemma occurs_suffix pat u v :
  occurs pat (u ++ v) = false -> prefix pat v = false.
Proof.
  induction u as [|c u IH]; simpl.
  - unfold occurs. rewrite find_sub_eq. now destruct (prefix pat v).
  - intros H. apply occurs_cons in H as [_ H]. now apply IH.
Qed.

Lemma occurs_unfold pat x s :
  occurs pat (String x s) = (prefix pat (String x s) || occurs pat s)%bool.
Proof.
  unfold occurs. rewrite find_sub_eq.
  destruct (prefix pat (String x s)); [reflexivity|].
  now destruct (find_sub pat s) as [[a b]|].
Qed.

(** [pat] does not occur in [a ++ b] when it does not occur in [b] and
    starts at no position of [a]. *)
Lemma occurs_append pat a b :
  (forall a1 a2, a = a1 ++ a2 -> a2 <> "" -> prefix pat (a2 ++ b) = false) ->
  occurs pat b = false -> occurs pat (a ++ b) = false.
Proof.
  induction a as [|c a IH]; intros H Hb; [exact Hb|].
  change (String c a ++ b) with (String c (a ++ b)).
  rewrite occurs_unfold.
  assert (P : prefix pat (String c a ++ b) = false)
    by (apply (H "" (String c a) eq_refl); discriminate).
  change (String c a ++ b) with (String c (a ++ b)) in P. rewrite P.
  apply IH; [|exact Hb].
  intros a1 a2 -> Hne. now apply (H (String c a1) a2).
Qed.

(* ================================================================= *)
(** ** Facts about results *)

Lemma bind_Ok_r {A : Type} (r : result A) : (x <- r ;; Ok x) = r.
Proof. now destruct r. Qed.

Lemma bind_assoc {A B C : Type} (r : result A) (f : A -> result B)
      (g : B -> result C) :
  (y <- (x <- r ;; f x) ;; g y) = (x <- r ;; y <- f x ;; g y).
Proof. now destruct r. Qed.

Lemma is_Ok_bind {A B : Type} (r : result A) (k : A -> result B) :
  is_Ok r -> (forall a, is_Ok (k a)) -> is_Ok (x <- r ;; k x).
Proof. intros [a ->] H. apply H. Qed.



Lemma calm_with_calm {A : Type} (P : A -> Prop) (r : result A) :
  calm_with P r -> calm r.
Proof. now destruct r. Qed.



(* ================================================================= *)
(** ** Facts about the global replace *)

Lemma string_length_ind (P : string -> Prop) :
  (forall s, (forall t, String.length t < String.length s -> P t) -> P s) ->
  forall s, P s.
Proof.
  intros H s.
  assert (G : forall n t, String.length t < n -> P t).
  { induction n as [|n IH]; intros t Ht; [lia|].
    apply H. intros u Hu. apply IH. lia. }
  apply (G (S (String.length s))). lia.
Qed.

Section GlobalReplaceFacts.

Context {M : Type}.
Variable exec : string -> option (M * string * string).
Variable replacer : string -> M -> string -> string -> result string.

(** A match is a non-empty prefix of the string. *)
Hypothesis exec_sound : forall s m matched rest,
    exec s = Some (m, matched, rest) -> s = matched ++ rest /\ matched <> "".

Lemma exec_shrinks s m matched rest :
  exec s = Some (m, matched, rest) -> String.length rest < String.length s.
Proof.
  intros H. apply exec_sound in H as [-> Hne].
  rewrite length_append. destruct matched; [congruence | simpl; lia].
Qed.

Lemma replace_loop_fuel_irrelevant n : forall k b s,
    String.length s < n -> String.length s < k ->
    replace_loop exec replacer n b s = replace_loop exec replacer k b s.
Proof.
  induction n as [|n IH]; intros k b s Hn Hk; [lia|].
  destruct k as [|k]; [lia|].
  destruct s as [|c s']; [reflexivity|].
  cbn [replace_loop].
  destruct (exec (String c s')) as [[[m matched] rest]|] eqn:E.
  - apply exec_shrinks in E.
    rewrite (IH k (b ++ matched) rest) by lia. reflexivity.
  - simpl in Hn, Hk. rewrite (IH k (b ++ String c "") s') by lia. reflexivity.
Qed.

(** Any budget above the length of the string gives the same result. *)
Lemma replace_loop_fuel n b s :
  String.length s < n ->
  replace_loop exec replacer n b s = replace_at exec replacer b s.
Proof.
  intros H. unfold replace_at. apply replace_loop_fuel_irrelevant; lia.
Qed.

Lemma replace_at_nil b : replace_at exec replacer b "" = Ok "".
Proof. reflexivity. Qed.

Lemma replace_at_match b s m matched rest :
  exec s = Some (m, matched, rest) ->
  replace_at exec replacer b s =
  (r <- replacer b m matched rest ;;
   out <- replace_at exec replacer (b ++ matched) rest ;;
   Ok (r ++ out)).
Proof.
  intros E. pose proof (exec_shrinks _ _ _ _ E) as Hlt.
  destruct s as [|c s']; [simpl in Hlt; lia|].
  unfold replace_at at 1. cbn [replace_loop]. rewrite E.
  rewrite replace_loop_fuel by assumption. reflexivity.
Qed.

Lemma replace_at_skip b c s' :
  exec (String c s') = None ->
  replace_at exec replacer b (String c s') =
  (out <- replace_at exec replacer (b ++ String c "") s' ;;
   Ok (String c out)).
Proof.
  intros E. unfold replace_at at 1. cbn [replace_loop]. rewrite E.
  reflexivity.
Qed.

(** The scan ends, and ends normally when every replacement does. *)
Lemma replace_at_total :
  (forall b m matched rest, is_Ok (replacer b m matched rest)) ->
  forall s b, is_Ok (replace_at exec replacer b s).
Proof.
  intros Hr s. induction s as [s IH] using string_length_ind. intros b.
  destruct s as [|c s']; [now exists ""|].
  destruct (exec (String c s')) as [[[m matched] rest]|] eqn:E.
  - rewrite (replace_at_match _ _ _ _ _ E).
    apply is_Ok_bind; [apply Hr|]. intros r.
    apply is_Ok_bind; [|intros out; now eexists].
    apply IH. now apply exec_shrinks in E.
  - rewrite (replace_at_skip _ _ _ E).
    apply is_Ok_bind; [|intros out; now eexists].
    apply IH. simpl; lia.
Qed.


(** A string in which the expression matches nowhere is returned as it
    is, without a call of the replacer. *)
Lemma replace_at_no_match s :
  (forall u v, s = u ++ v -> exec v = None) ->
  forall b, replace_at exec replacer b s = Ok s.
Proof.
  induction s as [|c s' IH]; intros H b; [reflexivity|].
  rewrite replace_at_skip by (apply (H ""); reflexivity).
  rewrite IH; [reflexivity|].
  intros u v ->. apply (H (String c u)). reflexivity.
Qed.

Section ContextFree.

(** The replacer looks at neither the text before the match nor the
    text after it. *)
Hypothesis ctx_free : forall b b' m matched a a',
    replacer b m matched a = replacer b' m matched a'.

Lemma replace_at_before s : forall b b',
    replace_at exec replacer b s = replace_at exec replacer b' s.
Proof.
  induction s as [s IH] using string_length_ind. intros b b'.
  destruct s as [|c s']; [reflexivity|].
  destruct (exec (String c s')) as [[[m matched] rest]|] eqn:E.
  - rewrite !(replace_at_match _ _ _ _ _ E).
    rewrite (ctx_free b b' m matched rest rest).
    rewrite (IH rest (exec_shrinks _ _ _ _ E) (b ++ matched) (b' ++ matched)).
    reflexivity.
  - rewrite !(replace_at_skip _ _ _ E).
    rewrite (IH s' (Nat.lt_succ_diag_r _) (b ++ String c "") (b' ++ String c "")).
    reflexivity.
Qed.

Variable tail : string.
Variable P : string -> Prop.
Hypothesis P_suffix : forall c v, P (String c v) -> P v.
Hypothesis P_local : forall v,
    v <> "" -> P v -> exec (v ++ tail) = lift_exec tail (exec v).

Lemma P_drop matched rest : P (matched ++ rest) -> P rest.
Proof.
  induction matched as [|x a IH]; simpl; [trivial|].
  intros H. apply IH. now apply P_suffix in H.
Qed.

(** Replacing in [pre ++ tail] is replacing in [pre] and in [tail]
    when no match that starts in [pre] reaches into [tail]. *)
Lemma replace_at_append pre :
  P pre -> forall b,
  replace_at exec replacer b (pre ++ tail) =
  (a <- replace_at exec replacer b pre ;;
   t <- replace_at exec replacer b tail ;;
   Ok (a ++ t)).
Proof.
  induction pre as [pre IH] using string_length_ind. intros HP b.
  destruct pre as [|c v].
  - simpl. now rewrite bind_Ok_r.
  - assert (Hne : String c v <> "") by discriminate.
    pose proof (P_local _ Hne HP) as L.
    destruct (exec (String c v)) as [[[m matched] rest]|] eqn:E;
      simpl in L.
    + rewrite (replace_at_match _ _ _ _ _ L).
      rewrite (replace_at_match _ _ _ _ _ E).
      pose proof (exec_shrinks _ _ _ _ E) as Hlt.
      apply exec_sound in E as [E _]. rewrite E in HP.
      rewrite (IH rest Hlt (P_drop _ _ HP)).
      rewrite (ctx_free b b m matched (rest ++ tail) rest).
      rewrite (replace_at_before rest (b ++ matched) b).
      rewrite (replace_at_before tail (b ++ matched) b).
      destruct (replacer b m matched rest); simpl; try reflexivity.
      destruct (replace_at exec replacer b rest); simpl; try reflexivity.
      destruct (replace_at exec replacer b tail); simpl; try reflexivity.
      now rewrite append_assoc.
    + change (String c v ++ tail) with (String c (v ++ tail)) in *.
      rewrite (replace_at_skip _ _ _ L), (replace_at_skip _ _ _ E).
      rewrite (IH v (Nat.lt_succ_diag_r _) (P_suffix _ _ HP)).
      rewrite (replace_at_before v (b ++ String c "") b).
      rewrite (replace_at_before tail (b ++ String c "") b).
      destruct (replace_at exec replacer b v); simpl; try reflexivity.
      destruct (replace_at exec replacer b tail); simpl; reflexivity.
Qed.

End ContextFree.

End GlobalReplaceFacts.

(* ================================================================= *)
(** ** Facts about the three regular expressions *)

#[local] Arguments ascii_dec : simpl never.

Ltac case_chars :=
  repeat match goal with
         | |- context [ascii_dec ?x ?y] =>
             destruct (ascii_dec x y); subst; simpl; try congruence
         | H : context [ascii_dec ?x ?y] |- _ =>
             destruct (ascii_dec x y); subst; simpl in H; try congruence
         end;
  rewrite ?prefix_nil in *; try reflexivity; try congruence.

Lemma span_append_stop (p : ascii -> bool) (t : string) (c : ascii) (r : string) :
  p c = false ->
  span p (t ++ String c r) = (fst (span p t), snd (span p t) ++ String c r).
Proof.
  intros Hc. induction t as [|x t IH]; simpl.
  - now rewrite Hc.
  - destruct (p x); [|reflexivity].
    rewrite IH. now destruct (span p t).
Qed.

Lemma prefix_closing (t r : string) :
  prefix "}}" (t ++ "{{" ++ r) = prefix "}}" t /\
  (prefix "}}" t = true -> drop 2 (t ++ "{{" ++ r) = drop 2 t ++ "{{" ++ r).
Proof.
  destruct t as [|a [|b t]]; simpl; split; try congruence; case_chars.
Qed.

(** A match of [simplePattern] is a marker around a non-empty path. *)
Lemma simplePattern_inv s path matched rest :
  simplePattern s = Some (path, matched, rest) ->
  path <> "" /\ forallb_string is_path_char path = true /\
  matched = "{{" ++ path ++ "}}" /\ s = matched ++ rest.
Proof.
  unfold simplePattern. intros H.
  destruct (prefix "{{" s) eqn:E1; [|discriminate].
  apply prefix_drop in E1. simpl String.length in E1.
  destruct (span is_path_char (drop 2 s)) as [p t] eqn:E2.
  destruct p as [|c p]; [discriminate|].
  destruct (prefix "}}" t) eqn:E3; [|discriminate].
  apply prefix_drop in E3. simpl String.length in E3.
  inversion H; subst path matched rest; clear H.
  pose proof (span_forallb _ _ _ _ E2) as F.
  apply span_append in E2.
  repeat split; try assumption; try discriminate.
  rewrite E1 at 1. rewrite E2. rewrite E3 at 1.
  simpl. now rewrite append_assoc.
Qed.

Lemma simplePattern_sound s m matched rest :
  simplePattern s = Some (m, matched, rest) ->
  s = matched ++ rest /\ matched <> "".
Proof.
  intros H. apply simplePattern_inv in H as (_ & _ & -> & ->).
  split; [reflexivity | discriminate].
Qed.

(** A marker around a non-empty path is matched in full. *)
Lemma simplePattern_marker path post :
  path <> "" -> forallb_string is_path_char path = true ->
  simplePattern ("{{" ++ path ++ "}}" ++ post) =
  Some (path, "{{" ++ path ++ "}}", post).
Proof.
  intros Hne Hp. unfold simplePattern.
  rewrite prefix_append.
  change (drop 2 ("{{" ++ path ++ "}}" ++ post)) with (path ++ "}}" ++ post).
  change ("}}" ++ post) with (String "}" (String "}" post)).
  rewrite span_run by (assumption || reflexivity).
  destruct path; [congruence|].
  change (String "}" (String "}" post)) with ("}}" ++ post).
  now rewrite prefix_append.
Qed.

(** A match of [simplePattern] that starts before a marker ends before
    it. *)
Lemma simplePattern_local v r :
  v <> "" ->
  simplePattern (v ++ "{{" ++ r) = lift_exec ("{{" ++ r) (simplePattern v).
Proof.
  intros Hne. destruct v as [|c1 v1]; [congruence|].
  unfold simplePattern.
  destruct v1 as [|c2 v2].
  - simpl. case_chars.
  - destruct (prefix "{{" (String c1 (String c2 v2))) eqn:E.
    + assert (E' : prefix "{{" (String c1 (String c2 v2) ++ "{{" ++ r) = true).
      { simpl in *. case_chars. }
      rewrite E'.
      change (drop 2 (String c1 (String c2 v2) ++ "{{" ++ r))
        with (v2 ++ String "{" (String "{" r)).
      change (drop 2 (String c1 (String c2 v2))) with v2.
      rewrite span_append_stop by reflexivity.
      destruct (span is_path_char v2) as [p t]. simpl fst; simpl snd.
      destruct p as [|x p]; [reflexivity|].
      destruct (prefix_closing t r) as [P1 P2].
      change (String "{" (String "{" r)) with ("{{" ++ r).
      rewrite P1. destruct (prefix "}}" t); [|reflexivity].
      rewrite P2 by reflexivity. reflexivity.
    + assert (E' : prefix "{{" (String c1 (String c2 v2) ++ "{{" ++ r) = false).
      { simpl in *. case_chars. }
      rewrite E'. reflexivity.
Qed.

Lemma selfPattern_sound s m matched rest :
  selfPattern s = Some (m, matched, rest) ->
  s = matched ++ rest /\ matched <> "".
Proof.
  unfold selfPattern. destruct (prefix "{{.}}" s) eqn:E; [|discriminate].
  intros H; inversion H; subst. split; [|discriminate].
  now apply prefix_drop in E.
Qed.

(** A self-reference that starts before a marker ends before it. *)
Lemma selfPattern_local v r :
  v <> "" ->
  selfPattern (v ++ "{{" ++ r) = lift_exec ("{{" ++ r) (selfPattern v).
Proof.
  intros Hne. unfold selfPattern.
  destruct v as [|a [|b [|c [|d [|e v]]]]]; try congruence;
    simpl; case_chars.
Qed.

Lemma no_section_start_false (v : string) :
  no_section_start v = true -> occurs "{{#" v = false.
Proof. unfold no_section_start. now destruct (occurs "{{#" v). Qed.

Lemma no_section_start_prefix (v : string) :
  no_section_start v = true -> prefix "{{#" v = false.
Proof.
  intros H. apply no_section_start_false in H.
  now apply (occurs_suffix _ "" v).
Qed.

Lemma no_section_start_suffix c v :
  no_section_start (String c v) = true -> no_section_start v = true.
Proof.
  intros H. apply no_section_start_false in H.
  apply occurs_cons in H as [_ H]. unfold no_section_start. now rewrite H.
Qed.

Lemma no_section_start_drop u v :
  no_section_start (u ++ v) = true -> no_section_start v = true.
Proof.
  induction u as [|c u IH]; [trivial|].
  intros H. now apply IH, (no_section_start_suffix c).
Qed.

(** A start marker cannot begin in [v] and end in a marker that follows
    [v]. *)
Lemma prefix_start_before_marker v r :
  v <> "" -> prefix "{{#" v = false ->
  prefix "{{#" (v ++ "{{" ++ r) = false.
Proof.
  intros Hne. destruct v as [|a [|b [|c v]]]; simpl; try congruence;
    intros H; case_chars.
Qed.

Lemma arrayPattern_no_start v : prefix "{{#" v = false -> arrayPattern v = None.
Proof. intros H. unfold arrayPattern. now rewrite H. Qed.

Lemma arrayPattern_local v r :
  v <> "" -> no_section_start v = true ->
  arrayPattern (v ++ "{{" ++ r) = lift_exec ("{{" ++ r) (arrayPattern v).
Proof.
  intros Hne H. apply no_section_start_prefix in H.
  rewrite (arrayPattern_no_start v H). apply arrayPattern_no_start.
  now apply prefix_start_before_marker.
Qed.

(** A text whose first character is not an opening brace starts no
    marker. *)
Lemma lacks_brace_prefix (x : ascii) (w b p : string) :
  lacks "{" (String x w) = true ->
  prefix (String "{" p) (String x w ++ b) = false.
Proof.
  unfold lacks. simpl. intros H. apply andb_prop in H as [Hx _].
  destruct (ascii_dec "{" x) as [<-|]; [discriminate | reflexivity].
Qed.

Lemma lacks_drop c u v : lacks c (u ++ v) = true -> lacks c v = true.
Proof.
  unfold lacks. induction u as [|x u IH]; simpl; [trivial|].
  intros H. apply andb_prop in H as [_ H]. now apply IH.
Qed.

(** No section start begins in a text without opening brace, nor
    straddles its end. *)
Lemma no_section_start_after_plain a b :
  lacks "{" a = true -> no_section_start b = true ->
  no_section_start (a ++ b) = true.
Proof.
  intros Ha Hb. unfold no_section_start.
  rewrite occurs_append; [reflexivity | | now apply no_section_start_false].
  intros a1 a2 -> Hne. apply lacks_drop in Ha.
  destruct a2 as [|x w]; [congruence|]. now apply lacks_brace_prefix.
Qed.

(** A match of [arrayPattern] is a start marker, a body and the end marker
    of the same name. *)
Lemma arrayPattern_inv s name inner matched rest :
  arrayPattern s = Some ((name, inner), matched, rest) ->
  name <> "" /\ forallb_string is_word name = true /\
  matched = "{{#" ++ name ++ "}}" ++ inner ++ "{{/" ++ name ++ "}}" /\
  s = matched ++ rest.
Proof.
  unfold arrayPattern. intros H.
  destruct (prefix "{{#" s) eqn:E1; [|discriminate].
  apply prefix_drop in E1. simpl String.length in E1.
  destruct (span is_word (drop 3 s)) as [n t] eqn:E2.
  destruct n as [|c n]; [discriminate|].
  destruct (prefix "}}" t) eqn:E3; [|discriminate].
  apply prefix_drop in E3. simpl String.length in E3.
  destruct (find_sub ("{{/" ++ String c n ++ "}}") (drop 2 t))
    as [[i r]|] eqn:E4; [|discriminate].
  inversion H; subst name inner matched rest; clear H.
  pose proof (span_forallb _ _ _ _ E2) as F.
  apply span_append in E2. apply find_sub_sound in E4.
  repeat split; try assumption; try discriminate.
  rewrite E1 at 1. rewrite E2. rewrite E3 at 1. rewrite E4.
  simpl. repeat (rewrite ?append_assoc; simpl). reflexivity.
Qed.

Lemma arrayPattern_sound s m matched rest :
  arrayPattern s = Some (m, matched, rest) ->
  s = matched ++ rest /\ matched <> "".
Proof.
  destruct m as [name inner]. intros H.
  apply arrayPattern_inv in H as (_ & _ & -> & ->).
  split; [reflexivity | discriminate].
Qed.

Lemma prefix_append_false (q w : string) (c : ascii) (r : string) :
  prefix q w = false -> lacks c q = true ->
  prefix q (w ++ String c r) = false.
Proof.
  unfold lacks. revert w. induction q as [|a q IH]; intros w H L.
  - now rewrite prefix_nil in H.
  - simpl in L. apply andb_prop in L as [La Lq].
    destruct w as [|x w]; simpl.
    + destruct (ascii_dec a c) as [->|]; [|reflexivity].
      now rewrite Ascii.eqb_refl in La.
    + simpl in H. destruct (ascii_dec a x); [|reflexivity].
      now apply IH.
Qed.

Lemma is_word_lacks (c : ascii) (name : string) :
  is_word c = false -> forallb_string is_word name = true ->
  lacks c name = true.
Proof.
  unfold lacks. intros Hc. induction name as [|x n IH]; simpl; [reflexivity|].
  intros H. apply andb_prop in H as [Hx Hn]. rewrite (IH Hn), andb_true_r.
  destruct (Ascii.eqb_spec x c) as [->|]; [congruence | reflexivity].
Qed.

Lemma is_word_lacks_path (c : ascii) (path : string) :
  is_path_char c = false -> forallb_string is_path_char path = true ->
  lacks c path = true.
Proof.
  unfold lacks. intros Hc. induction path as [|x n IH]; simpl; [reflexivity|].
  intros H. apply andb_prop in H as [Hx Hn]. rewrite (IH Hn), andb_true_r.
  destruct (Ascii.eqb_spec x c) as [->|]; [congruence | reflexivity].
Qed.

Lemma String_neq_Empty {c : ascii} {s : string} : String c s = "" -> False.
Proof. discriminate. Defined.

Lemma lacks_append c a b : lacks c (a ++ b) = (lacks c a && lacks c b)%bool.
Proof.
  unfold lacks. induction a as [|x a IH]; simpl; [reflexivity|].
  now rewrite IH, andb_assoc.
Qed.

(** An occurrence of the end marker cannot start in [w] and end in a copy
    of the end marker that follows [w]. *)
Lemma closer_no_straddle name w post :
  forallb_string is_word name = true -> w <> "" ->
  prefix (closer name) w = false ->
  prefix (closer name) (w ++ closer name ++ post) = false.
Proof.
  intros Hn Hne H. unfold closer in *.
  destruct w as [|c1 [|c2 [|c3 w]]]; try congruence; simpl in *; case_chars.
  change (String "{" (String "{" (String "/" ((name ++ "}}") ++ post))))
    with (String "{" ("{/" ++ (name ++ "}}") ++ post)).
  apply prefix_append_false; [assumption|].
  rewrite lacks_append, (is_word_lacks "{" name) by (reflexivity || assumption).
  reflexivity.
Qed.

(** The shortest body ends at the first end marker: a body in which the
    end marker does not occur is matched in full. *)
Lemma find_sub_first name body post :
  forallb_string is_word name = true ->
  occurs (closer name) body = false ->
  find_sub (closer name) (body ++ closer name ++ post) = Some (body, post).
Proof.
  intros Hn. induction body as [|c b IH]; intros Ho; rewrite find_sub_eq.
  - change ("" ++ closer name ++ post) with (closer name ++ post).
    now rewrite prefix_append, drop_append.
  - apply occurs_cons in Ho as [Hp Ho].
    rewrite closer_no_straddle by (assumption || discriminate).
    change (String c b ++ closer name ++ post)
      with (String c (b ++ closer name ++ post)).
    cbv iota. now rewrite IH.
Qed.

(** A well-formed section is matched in full. *)
Lemma arrayPattern_section name body post :
  name <> "" -> forallb_string is_word name = true ->
  occurs (closer name) body = false ->
  arrayPattern ("{{#" ++ name ++ "}}" ++ body ++ closer name ++ post) =
  Some ((name, body), "{{#" ++ name ++ "}}" ++ body ++ closer name, post).
Proof.
  intros Hne Hn Ho. unfold arrayPattern.
  rewrite prefix_append.
  change (drop 3 ("{{#" ++ name ++ "}}" ++ body ++ closer name ++ post))
    with (name ++ String "}" (String "}" (body ++ closer name ++ post))).
  rewrite span_run by (assumption || reflexivity).
  destruct name as [|x n]; [congruence|].
  change (String "}" (String "}" (body ++ closer (String x n) ++ post)))
    with ("}}" ++ body ++ closer (String x n) ++ post).
  rewrite prefix_append.
  change (drop 2 ("}}" ++ body ++ closer (String x n) ++ post))
    with (body ++ closer (String x n) ++ post).
  fold (closer (String x n)).
  now rewrite find_sub_first.
Qed.

(* ================================================================= *)
(** ** The two passes on a template split around a marker *)

(** Pass 2 around a placeholder: the text before it and the text after it
    are processed independently of it. *)
Lemma replaceSimpleVariables_marker pre path post data :
  path <> "" -> forallb_string is_path_char path = true ->
  replaceSimpleVariables (pre ++ "{{" ++ path ++ "}}" ++ post) data =
  (a <- replaceSimpleVariables pre data ;;
   r <- substitute data ("{{" ++ path ++ "}}") path ;;
   b <- replaceSimpleVariables post data ;;
   Ok (a ++ r ++ b)).
Proof.
  intros Hne Hp. unfold replaceSimpleVariables, replace_global.
  set (f := fun (_ : string) p m (_ : string) => substitute data m p).
  assert (Hf : forall b b' m matched a a',
             f b m matched a = f b' m matched a') by reflexivity.
  rewrite (replace_at_append simplePattern f simplePattern_sound Hf
             ("{{" ++ path ++ "}}" ++ post) (fun _ => True)
             (fun _ _ _ => I)
             (fun v Hv _ => simplePattern_local v _ Hv) pre I "").
  rewrite (replace_at_match simplePattern f simplePattern_sound ""
             ("{{" ++ path ++ "}}" ++ post) _ _ _
             (simplePattern_marker path post Hne Hp)).
  rewrite (replace_at_before simplePattern f simplePattern_sound Hf post _ "").
  destruct (replace_at simplePattern f "" pre); try reflexivity.
  unfold f at 1. simpl. destruct (substitute data _ path); try reflexivity.
  simpl. destruct (replace_at simplePattern f "" post); reflexivity.
Qed.

(** Pass 2 on a template that is one placeholder. *)
Lemma replaceSimpleVariables_single path data :
  path <> "" -> forallb_string is_path_char path = true ->
  replaceSimpleVariables ("{{" ++ path ++ "}}") data =
  substitute data ("{{" ++ path ++ "}}") path.
Proof.
  intros Hne Hp.
  pose proof (replaceSimpleVariables_marker "" path "" data Hne Hp) as M.
  change ("" ++ "{{" ++ path ++ "}}" ++ "") with ("{{" ++ path ++ "}}") in M.
  rewrite M. change (replaceSimpleVariables "" data) with (Ok "").
  cbn [bind]. destruct (substitute data ("{{" ++ path ++ "}}") path);
    cbn [bind]; try reflexivity.
  now rewrite append_nil_r.
Qed.

(** Pass 1 leaves a text in which no section starts as it is. *)
Lemma expandSections_no_start template data :
  no_section_start template = true ->
  expandSections template data = Ok template.
Proof.
  intros H. unfold expandSections, replace_global.
  apply (replace_at_no_match arrayPattern).
  intros u v ->. apply arrayPattern_no_start, no_section_start_prefix.
  now apply (no_section_start_drop u).
Qed.

(** Pass 1 around a section that follows a text in which no section
    starts. *)
Lemma expandSections_section pre name body post data :
  no_section_start pre = true ->
  name <> "" -> forallb_string is_word name = true ->
  occurs (closer name) body = false ->
  expandSections (pre ++ "{{#" ++ name ++ "}}" ++ body ++ closer name ++ post)
                 data =
  (r <- expandSection data name body ;;
   t <- expandSections post data ;;
   Ok (pre ++ r ++ t)).
Proof.
  intros Hpre Hne Hn Ho.
  pose proof (expandSections_no_start pre data Hpre) as Epre.
  unfold expandSections, replace_global in *.
  set (f := fun (_ : string) (m : string * string) (_ _ : string) =>
              expandSection data (fst m) (snd m)) in *.
  assert (Hf : forall b b' m matched a a',
             f b m matched a = f b' m matched a') by reflexivity.
  rewrite (replace_at_append arrayPattern f arrayPattern_sound Hf
             ("{{#" ++ name ++ "}}" ++ body ++ closer name ++ post)
             (fun v => no_section_start v = true)
             no_section_start_suffix
             (fun v Hv Hh => arrayPattern_local v _ Hv Hh) pre Hpre "").
  rewrite Epre.
  rewrite (replace_at_match arrayPattern f arrayPattern_sound "" _ _ _ _
             (arrayPattern_section name body post Hne Hn Ho)).
  rewrite (replace_at_before arrayPattern f arrayPattern_sound Hf post _ "").
  unfold f at 1. simpl fst; simpl snd.
  destruct (expandSection data name body); try reflexivity.
  simpl. destruct (replace_at arrayPattern f "" post); reflexivity.
Qed.

(** A body without self-reference is left as it is by the first
    replacement of the loop. *)
Lemma replaceSelf_absent body rep :
  occurs "{{.}}" body = false -> replaceSelf body rep = Ok body.
Proof.
  intros H. unfold replaceSelf, replace_global.
  apply (replace_at_no_match selfPattern).
  intros u v ->. unfold selfPattern. now rewrite (occurs_suffix _ u v).
Qed.

(* ================================================================= *)
(** ** Facts about lookups *)

Lemma lacks_split (a : string) : lacks "." a = true -> split "." a = [a].
Proof.
  unfold lacks. induction a as [|c a IH]; simpl; [reflexivity|].
  intros H. apply andb_prop in H as [Hc Ha].
  destruct (Ascii.eqb c "."); [discriminate|]. now rewrite (IH Ha).
Qed.

Lemma lacks_split_dot (a rest : string) :
  lacks "." a = true -> split "." (a ++ "." ++ rest) = a :: split "." rest.
Proof.
  change ("." ++ rest) with (String "." rest).
  unfold lacks. induction a as [|c a IH]; simpl; [reflexivity|].
  intros H. apply andb_prop in H as [Hc Ha].
  destruct (Ascii.eqb c "."); [discriminate|]. now rewrite (IH Ha).
Qed.

Lemma fold_descend_bind (l : list string) (r : result value) :
  fold_left descend l r = (x <- r ;; fold_left descend l (Ok x)).
Proof.
  destruct r; simpl; [reflexivity | | |];
    induction l as [|k l IH]; simpl; auto.
Qed.

(** A name that [Object.prototype] does not hold is undefined on a
    mapping that does not hold it either. *)
Lemma inherited_from_object_none (key : string) :
  inherited_by_object key = false -> inherited_from_object key = Ok VUndefined.
Proof.
  unfold inherited_by_object, inherited_from_object. intros H.
  apply orb_false_elim in H as [-> ->]. reflexivity.
Qed.

(** A path of one segment is one guarded property access. *)
Lemma getNestedValue_segment (obj : value) (key : string) :
  lacks "." key = true ->
  getNestedValue obj key =
  if is_undefined obj then Ok VUndefined else Get obj key.
Proof.
  intros H. unfold getNestedValue. now rewrite lacks_split.
Qed.

(** A dotted path is its first segment followed by the rest of the path,
    resolved from what the first segment gave. *)
Lemma getNestedValue_dot (obj : value) (key rest : string) :
  lacks "." key = true ->
  getNestedValue obj (key ++ "." ++ rest) =
  (x <- getNestedValue obj key ;; getNestedValue x rest).
Proof.
  intros H. unfold getNestedValue.
  rewrite (lacks_split_dot key rest H), (lacks_split key H).
  cbn [fold_left]. apply fold_descend_bind.
Qed.

Lemma getNestedValue_undefined (path : string) :
  getNestedValue VUndefined path = Ok VUndefined.
Proof.
  unfold getNestedValue.
  induction (split "." path) as [|k l IH]; simpl; [reflexivity | exact IH].
Qed.

Lemma index_of_key_of_index (i : nat) : index_of_key (key_of_index i) = Some i.
Proof.
  unfold index_of_key, key_of_index.
  rewrite NilEmpty.usu, DecimalN.Unsigned.of_to, String.eqb_refl.
  now rewrite Nnat.Nat2N.id.
Qed.

Lemma key_of_index_not_length (i : nat) :
  String.eqb (key_of_index i) "length" = false.
Proof.
  apply String.eqb_neq. intros E.
  pose proof (index_of_key_of_index i) as H. rewrite E in H. discriminate.
Qed.

(* ================================================================= *)
(** ** Convertible contexts never make the processor throw *)










Lemma replaceSelf_total innerTemplate rep :
  is_Ok (replaceSelf innerTemplate rep).
Proof.
  unfold replaceSelf, replace_global.
  apply (replace_at_total selfPattern _ selfPattern_sound).
  intros. now eexists.
Qed.


Lemma map_result_total {A B : Type} (f : A -> result B) (l : list A) :
  Forall (fun x => is_Ok (f x)) l -> is_Ok (map_result f l).
Proof.
  induction 1 as [|x l [y Ey] _ [ys Eys]]; simpl; [now eexists|].
  rewrite Ey, Eys. now eexists.
Qed.





(** Where no section starts the first pass changes nothing. *)
Lemma replaceVariables_no_start template data :
  no_section_start template = true ->
  replaceVariables template data = replaceSimpleVariables template data.
Proof.
  intros H. unfold replaceVariables.
  now rewrite expandSections_no_start.
Qed.

(* ================================================================= *)
(** ** Dotted paths (claim C3) *)

(** C3, as stated, fails: the claim says that a path is undefined whenever
    an intermediate segment resolves to a value that is not a mapping.
    Here the intermediate value is a sequence and the path resolves to its
    first element. *)
Lemma C3_sequence_is_indexed :
  let data := VObj [("a", VArr [VStr "x"])] in
  getNestedValue data "a" = Ok (VArr [VStr "x"]) /\
  getNestedValue data "a.0" = Ok (VStr "x") /\
  getNestedValue data "a.length" = Ok (VNum 1).
Proof. repeat split; reflexivity. Qed.

(** C3 (amended): resolving the dotted path [a.b.c] is performing the three
    single-segment lookups in sequence, and the result is undefined
    whenever an intermediate lookup is undefined.  An intermediate value
    that is not a mapping is not rejected: the next segment is read as a
    property of it, so that a sequence answers its length and its element
    positions and a string its length. *)
Theorem getNestedValue_three_segments (data : value) (a b c : string) :
  lacks "." a = true -> lacks "." b = true -> lacks "." c = true ->
  getNestedValue data (a ++ "." ++ b ++ "." ++ c) =
    (x <- getNestedValue data a ;;
     y <- getNestedValue x b ;;
     getNestedValue y c)
  /\ (getNestedValue data a = Ok VUndefined ->
      getNestedValue data (a ++ "." ++ b ++ "." ++ c) = Ok VUndefined)
  /\ (forall x, getNestedValue data a = Ok x ->
      getNestedValue x b = Ok VUndefined ->
      getNestedValue data (a ++ "." ++ b ++ "." ++ c) = Ok VUndefined)
  /\ (forall x, is_undefined x = false -> getNestedValue x b = Get x b)
  /\ (forall items i item, nth_error items i = Some item ->
      Get (VArr items) (key_of_index i) = Ok item)
  /\ (forall items,
      Get (VArr items) "length" = Ok (VNum (Z.of_nat (List.length items))))
  /\ (forall s,
      Get (VStr s) "length" = Ok (VNum (Z.of_nat (String.length s)))).
Proof.
  intros Ha Hb Hc.
  assert (E : getNestedValue data (a ++ "." ++ b ++ "." ++ c) =
              (x <- getNestedValue data a ;;
               y <- getNestedValue x b ;;
               getNestedValue y c)).
  { rewrite (getNestedValue_dot data a _ Ha).
    destruct (getNestedValue data a) as [x| | |]; simpl; try reflexivity.
    apply (getNestedValue_dot x b c Hb). }
  repeat split.
  - exact E.
  - intros H. rewrite E, H. simpl.
    rewrite getNestedValue_undefined. simpl. apply getNestedValue_undefined.
  - intros x Hx Hy. rewrite E, Hx. simpl. rewrite Hy. simpl.
    apply getNestedValue_undefined.
  - intros x Hx. rewrite (getNestedValue_segment x b Hb). now rewrite Hx.
  - intros items i item H. simpl.
    now rewrite key_of_index_not_length, index_of_key_of_index, H.
Qed.

Lemma getNestedValue_three_segments_witness :
  let data := VObj [("user", VObj [("address", VObj [("city", VStr "Oslo")])])] in
  lacks "." "user" = true /\ lacks "." "address" = true /\
  lacks "." "city" = true /\
  getNestedValue data "user.address.city" = Ok (VStr "Oslo") /\
  (x <- getNestedValue data "user" ;;
   y <- getNestedValue x "address" ;;
   getNestedValue y "city") = Ok (VStr "Oslo").
Proof.
  intros data.
  refine (conj eq_refl (conj eq_refl (conj eq_refl (conj eq_refl _)))).
  rewrite <- (proj1 (getNestedValue_three_segments data "user" "address" "city"
                       eq_refl eq_refl eq_refl)).
  reflexivity.
Defined.

(* ================================================================= *)
(** ** Placeholders (claims C7 and C10) *)

(** No section starts in a placeholder, nor across its ends. *)
Lemma no_section_start_placeholder pre path post :
  no_section_start pre = true -> no_section_start post = true ->
  path <> "" -> forallb_string is_path_char path = true ->
  no_section_start (pre ++ "{{" ++ path ++ "}}" ++ post) = true.
Proof.
  intros Hpre Hpost Hne Hp. unfold no_section_start.
  rewrite occurs_append; [reflexivity| |].
  - intros a1 a2 -> Hne2. apply prefix_start_before_marker; [assumption|].
    apply no_section_start_prefix. now apply (no_section_start_drop a1).
  - destruct path as [|k path]; [congruence|].
    assert (Hk : is_path_char k = true)
      by (simpl in Hp; now apply andb_prop in Hp).
    change ("{{" ++ String k path ++ "}}" ++ post)
      with (String "{" (String "{" (String k path ++ "}}" ++ post))).
    rewrite !occurs_unfold.
    rewrite <- append_assoc.
    rewrite (no_section_start_false _
               (no_section_start_after_plain (String k path ++ "}}") post
                  ltac:(rewrite lacks_append,
                          (is_word_lacks_path "{" _ eq_refl Hp);
                        reflexivity)
                  Hpost)).
    simpl. case_chars; vm_compute in Hk; discriminate.
Qed.

(** A key that a mapping neither holds nor inherits is undefined, and so
    is every path that starts with it. *)
Lemma getNestedValue_missing (props : list (string * value))
      (key rest : string) :
  lacks "." key = true -> own key props = None ->
  inherited_by_object key = false ->
  getNestedValue (VObj props) key = Ok VUndefined /\
  getNestedValue (VObj props) (key ++ "." ++ rest) = Ok VUndefined.
Proof.
  intros Hk Ho Hi.
  assert (E : getNestedValue (VObj props) key = Ok VUndefined).
  { rewrite (getNestedValue_segment _ key Hk). simpl.
    now rewrite Ho, (inherited_from_object_none key Hi). }
  split; [exact E|].
  rewrite (getNestedValue_dot _ key rest Hk), E. simpl.
  apply getNestedValue_undefined.
Qed.

(** What holds of C7: a placeholder whose dotted path resolves to
    [undefined] is left in the output as it was written, whatever stands
    before and after it: in a template without sections, and in any
    template whose section pass leaves the placeholder in place.  The path
    resolves to [undefined] when its first segment is a key that the data
    neither holds nor inherits from [Object.prototype]. *)
Lemma unresolved_placeholder_is_kept (pre path post : string) (data : value) :
  path <> "" -> forallb_string is_path_char path = true ->
  getNestedValue data path = Ok VUndefined ->
  (no_section_start pre = true -> no_section_start post = true ->
   replaceVariables (pre ++ "{{" ++ path ++ "}}" ++ post) data =
   (a <- replaceSimpleVariables pre data ;;
    b <- replaceSimpleVariables post data ;;
    Ok (a ++ ("{{" ++ path ++ "}}") ++ b)))
  /\ (forall template,
      expandSections template data = Ok (pre ++ "{{" ++ path ++ "}}" ++ post) ->
      replaceVariables template data =
      (a <- replaceSimpleVariables pre data ;;
       b <- replaceSimpleVariables post data ;;
       Ok (a ++ ("{{" ++ path ++ "}}") ++ b)))
  /\ (forall props key rest,
      data = VObj props -> lacks "." key = true ->
      own key props = None -> inherited_by_object key = false ->
      getNestedValue data key = Ok VUndefined /\
      getNestedValue data (key ++ "." ++ rest) = Ok VUndefined).
Proof.
  intros Hne Hp Hu.
  assert (P2 : replaceSimpleVariables (pre ++ "{{" ++ path ++ "}}" ++ post) data =
               (a <- replaceSimpleVariables pre data ;;
                b <- replaceSimpleVariables post data ;;
                Ok (a ++ ("{{" ++ path ++ "}}") ++ b))).
  { rewrite (replaceSimpleVariables_marker pre path post data Hne Hp).
    unfold substitute. rewrite Hu. reflexivity. }
  split; [|split].
  - intros Hpre Hpost.
    rewrite replaceVariables_no_start
      by now apply no_section_start_placeholder.
    exact P2.
  - intros template E. unfold replaceVariables. rewrite E. exact P2.
  - intros props key rest -> Hk Ho Hi.
    now apply getNestedValue_missing.
Qed.

(** The two scenarios of the specification, and a placeholder that
    follows a section. *)
Lemma unresolved_placeholder_scenarios :
  ("missing" <> "" /\
   forallb_string is_path_char "missing" = true /\
   getNestedValue (VObj []) "missing" = Ok VUndefined /\
   replaceVariables "Hello {{missing}}!" (VObj []) = Ok "Hello {{missing}}!")
  /\
  (let data := VObj [("user", VObj [("name", VStr "Jo")])] in
   getNestedValue data "user.city" = Ok VUndefined /\
   replaceVariables "{{user.city}}" data = Ok "{{user.city}}")
  /\
  (let data := VObj [("tags", VArr [VStr "a"; VStr "b"])] in
   expandSections "{{#tags}}<{{.}}>{{/tags}} by {{author}}." data =
     Ok "<a><b> by {{author}}." /\
   replaceVariables "{{#tags}}<{{.}}>{{/tags}} by {{author}}." data =
     Ok "<a><b> by {{author}}.").
Proof.
  split; [|split].
  - refine (conj _ (conj eq_refl (conj eq_refl _))); [discriminate|].
    exact (proj1 (unresolved_placeholder_is_kept "Hello " "missing" "!"
                    (VObj []) (fun E => String_neq_Empty E) eq_refl eq_refl)
                 eq_refl eq_refl).
  - refine (conj eq_refl _).
    exact (proj1 (unresolved_placeholder_is_kept "" "user.city" ""
                    (VObj [("user", VObj [("name", VStr "Jo")])])
                    (fun E => String_neq_Empty E) eq_refl eq_refl)
                 eq_refl eq_refl).
  - refine (conj eq_refl _).
    exact (proj1 (proj2 (unresolved_placeholder_is_kept "<a><b> by " "author"
                           "." (VObj [("tags", VArr [VStr "a"; VStr "b"])])
                           (fun E => String_neq_Empty E) eq_refl eq_refl))
                 "{{#tags}}<{{.}}>{{/tags}} by {{author}}." eq_refl).
Qed.

(** C7 at inputs on which the code departs from it: the data has no key
    [constructor], and the mapping under [user] none named [valueOf], yet
    the lookup finds the functions of these names in [Object.prototype],
    the test against [undefined] passes, and the text of a function is
    written where the claim, and the comment of the source on keeping a
    variable that is not found, have the marker. *)
Theorem missing_key_found_in_prototype :
  let user := [("name", VStr "Jo")] in
  let data := VObj [("user", VObj user)] in
  own "constructor" [("user", VObj user)] = None /\
  getNestedValue data "constructor" = Ok (VFunction "Object") /\
  replaceVariables "Hello {{constructor}}!" data =
    Ok "Hello function Object() { [native code] }!" /\
  own "valueOf" user = None /\
  replaceVariables "{{user.valueOf}}" data =
    Ok "function valueOf() { [native code] }" /\
  replaceVariables "Hello {{constructor}}!" (VObj []) =
    Ok "Hello function Object() { [native code] }!".
Proof. repeat split. Qed.


Lemma ToString_scalar (x : value) :
  is_scalar x = true -> ToString x = Ok (scalar_text x).
Proof.
  destruct x as [| |[|]|z|s|items|props|name]; simpl; try congruence.
  unfold NumberToString. now intros ->.
Qed.






(* ================================================================= *)
(** ** Templates without markers (claim C8) *)

Lemma simplePattern_placeholder (v : string) :
  placeholder_at v = false -> simplePattern v = None.
Proof.
  unfold placeholder_at, delimited, simplePattern.
  change (String.length "{{") with 2.
  destruct (prefix "{{" v); [|reflexivity]. rewrite andb_true_l.
  destruct (span is_path_char (drop 2 v)) as [p t].
  destruct p as [|c p]; [reflexivity|].
  change (negb (String c p =? "")) with true. rewrite andb_true_l.
  now intros ->.
Qed.

Lemma arrayPattern_section_start (v : string) :
  section_start_at v = false -> arrayPattern v = None.
Proof.
  unfold section_start_at, delimited, arrayPattern.
  change (String.length "{{#") with 3.
  destruct (prefix "{{#" v); [|reflexivity]. rewrite andb_true_l.
  destruct (span is_word (drop 3 v)) as [p t].
  destruct p as [|c p]; [reflexivity|].
  change (negb (String c p =? "")) with true. rewrite andb_true_l.
  now intros ->.
Qed.

Lemma has_marker_suffix (u v : string) :
  has_marker (u ++ v) = false -> has_marker v = false.
Proof.
  induction u as [|c u IH]; simpl; [trivial|].
  intros H. apply orb_false_elim in H as [_ H]. now apply IH.
Qed.

Lemma has_marker_head (v : string) :
  has_marker v = false ->
  placeholder_at v = false /\ section_start_at v = false.
Proof.
  destruct v as [|c v]; [now split|].
  simpl. intros H.
  apply orb_false_elim in H as [H _].
  apply orb_false_elim in H as [H _].
  now apply orb_false_elim in H.
Qed.

(** C8: a template that contains no placeholder marker and no section
    marker is rendered as itself, for every data. *)
Theorem marker_free_identity (template : string) (data : value) :
  has_marker template = false ->
  replaceVariables template data = Ok template.
Proof.
  intros H. unfold replaceVariables.
  assert (E1 : expandSections template data = Ok template).
  { unfold expandSections, replace_global.
    apply (replace_at_no_match arrayPattern). intros u v ->.
    apply arrayPattern_section_start.
    now apply has_marker_head, (has_marker_suffix u). }
  rewrite E1. simpl.
  unfold replaceSimpleVariables, replace_global.
  apply (replace_at_no_match simplePattern). intros u v ->.
  apply simplePattern_placeholder.
  now apply has_marker_head, (has_marker_suffix u).
Qed.

Lemma marker_free_identity_witness :
  let template := "<a href='#top'>{ x } {{ not a marker }} {{#}} $1</a>" in
  has_marker template = false /\
  replaceVariables template VNull = Ok template.
Proof.
  intros template. split; [reflexivity|].
  exact (marker_free_identity template VNull eq_refl).
Defined.

(* ================================================================= *)
(** ** Sections (claims C4 and C6) *)

Lemma expandSection_non_sequence data name body v :
  getNestedValue data name = Ok v -> isArray v = false ->
  expandSection data name body = Ok "".
Proof.
  intros Hv Ha. unfold expandSection. rewrite Hv. simpl.
  destruct v; try reflexivity. discriminate.
Qed.

(** C6: a section whose name resolves to a value that is not a sequence is
    replaced by the empty string, whatever its body. *)
Theorem non_sequence_section_is_dropped
        (pre name body post : string) (data v : value) :
  no_section_start pre = true ->
  name <> "" -> forallb_string is_word name = true ->
  occurs (closer name) body = false ->
  getNestedValue data name = Ok v -> isArray v = false ->
  expandSection data name body = Ok ""
  /\ replaceVariables
       (pre ++ "{{#" ++ name ++ "}}" ++ body ++ closer name ++ post) data =
     (t <- expandSections post data ;;
      replaceSimpleVariables (pre ++ t) data)
  /\ replaceVariables ("{{#" ++ name ++ "}}" ++ body ++ closer name) data =
     Ok "".
Proof.
  intros Hpre Hne Hn Ho Hv Ha.
  pose proof (expandSection_non_sequence data name body v Hv Ha) as E.
  repeat split.
  - exact E.
  - unfold replaceVariables.
    rewrite (expandSections_section pre name body post data Hpre Hne Hn Ho), E.
    simpl. destruct (expandSections post data); reflexivity.
  - unfold replaceVariables.
    pose proof (expandSections_section "" name body "" data eq_refl Hne Hn Ho)
      as S.
    rewrite append_nil_r in S.
    change ("" ++ "{{#" ++ name ++ "}}" ++ body ++ closer name)
      with ("{{#" ++ name ++ "}}" ++ body ++ closer name) in S.
    rewrite S, E. reflexivity.
Qed.

(** An absent key, a string, a number and a mapping. *)
Lemma non_sequence_section_is_dropped_witness :
  let data := VObj [("title", VStr "Sale"); ("count", VNum 3);
                    ("owner", VObj [("name", VStr "Jo")])] in
  let body := "<li>{{.}} {{name}}</li>" in
  (no_section_start "<ul>" = true /\ "missing" <> "" /\
   forallb_string is_word "missing" = true /\
   occurs (closer "missing") body = false /\
   getNestedValue data "missing" = Ok VUndefined /\
   isArray VUndefined = false /\
   replaceVariables "<ul>{{#missing}}<li>{{.}} {{name}}</li>{{/missing}}</ul>"
                    data = Ok "<ul></ul>")
  /\ replaceVariables "{{#title}}<li>{{.}} {{name}}</li>{{/title}}" data = Ok ""
  /\ replaceVariables "{{#count}}<li>{{.}} {{name}}</li>{{/count}}" data = Ok ""
  /\ replaceVariables "{{#owner}}<li>{{.}} {{name}}</li>{{/owner}}" data = Ok "".
Proof.
  intros data body.
  refine (conj (conj eq_refl (conj _ (conj eq_refl (conj eq_refl
            (conj eq_refl (conj eq_refl _)))))) (conj _ (conj _ _))).
  - discriminate.
  - exact (proj1 (proj2 (non_sequence_section_is_dropped
                           "<ul>" "missing" body "</ul>" data VUndefined
                           eq_refl (fun E => String_neq_Empty E) eq_refl
                           eq_refl eq_refl eq_refl))).
  - exact (proj2 (proj2 (non_sequence_section_is_dropped
                           "" "title" body "" data (VStr "Sale")
                           eq_refl (fun E => String_neq_Empty E) eq_refl
                           eq_refl eq_refl eq_refl))).
  - exact (proj2 (proj2 (non_sequence_section_is_dropped
                           "" "count" body "" data (VNum 3)
                           eq_refl (fun E => String_neq_Empty E) eq_refl
                           eq_refl eq_refl eq_refl))).
  - exact (proj2 (proj2 (non_sequence_section_is_dropped
                           "" "owner" body "" data
                           (VObj [("name", VStr "Jo")])
                           eq_refl (fun E => String_neq_Empty E) eq_refl
                           eq_refl eq_refl eq_refl))).
Defined.

(** A start marker whose name has a dot is not matched by
    [arrayPattern]. *)
Lemma arrayPattern_dotted (a rest : string) :
  forallb_string is_word a = true ->
  arrayPattern ("{{#" ++ a ++ "." ++ rest) = None.
Proof.
  intros Ha. unfold arrayPattern. rewrite prefix_append.
  change (drop 3 ("{{#" ++ a ++ "." ++ rest)) with (a ++ String "." rest).
  rewrite span_run by (assumption || reflexivity).
  destruct a; [reflexivity|]. simpl. case_chars.
Qed.

Lemma expandSections_dotted (a rest : string) (data : value) :
  forallb_string is_word a = true -> no_section_start rest = true ->
  expandSections ("{{#" ++ a ++ "." ++ rest) data =
  Ok ("{{#" ++ a ++ "." ++ rest).
Proof.
  intros Ha Hr. unfold expandSections, replace_global.
  apply (replace_at_no_match arrayPattern). intros u v E.
  destruct u as [|c1 [|c2 [|c3 u]]]; simpl in E.
  - subst v. now apply arrayPattern_dotted.
  - inversion E; subst. unfold arrayPattern. simpl. case_chars.
  - inversion E; subst. unfold arrayPattern. simpl. case_chars.
  - inversion E as [[E1 E2 E3 E4]].
    apply arrayPattern_no_start, no_section_start_prefix.
    apply (no_section_start_drop u). rewrite <- E4.
    change (a ++ String "." rest) with (a ++ "." ++ rest).
    rewrite <- append_assoc. apply no_section_start_after_plain; [|assumption].
    rewrite lacks_append, (is_word_lacks "{" a eq_refl Ha). reflexivity.
Qed.

(** C4, as stated, fails: a section marker pair with a dotted name is not a
    section.  Here [a.b] resolves to a string, which is not a sequence, and
    the markers and the body are left in the output instead of being
    replaced by the empty string. *)
Lemma C4_dotted_section_name_is_not_a_section :
  let data := VObj [("a", VObj [("b", VStr "s")])] in
  getNestedValue data "a.b" = Ok (VStr "s") /\
  replaceVariables "{{#a.b}}x{{/a.b}}" data = Ok "{{#a.b}}x{{/a.b}}".
Proof. split; reflexivity. Qed.

(** C4 (amended): the name of a section is a single identifier; it is
    resolved against the top-level Data Context by one property lookup, and
    when it resolves to anything other than a sequence the section, markers
    and body, is replaced by the empty string.  A marker pair whose name
    has a dot is not a section: it starts no match of the section
    pattern, and the first pass leaves a template as it is when no other
    section starts after it. *)
Theorem section_name_resolution
        (pre name body post : string) (data : value) :
  no_section_start pre = true ->
  name <> "" -> forallb_string is_word name = true ->
  occurs (closer name) body = false ->
  expandSections (pre ++ "{{#" ++ name ++ "}}" ++ body ++ closer name ++ post)
                 data =
    (r <- (array <- (if is_undefined data then Ok VUndefined
                     else Get data name) ;;
           match array with
           | VArr items =>
               parts <- map_result (renderItem body) items ;;
               Ok (join_empty parts)
           | _ => Ok ""
           end) ;;
     t <- expandSections post data ;;
     Ok (pre ++ r ++ t))
  /\ (forall a rest,
      forallb_string is_word a = true -> no_section_start rest = true ->
      let template := "{{#" ++ a ++ "." ++ rest in
      expandSections template data = Ok template /\
      replaceVariables template data = replaceSimpleVariables template data).
Proof.
  intros Hpre Hne Hn Ho. split.
  - rewrite (expandSections_section pre name body post data Hpre Hne Hn Ho).
    unfold expandSection.
    rewrite (getNestedValue_segment data name)
      by (apply is_word_lacks; [reflexivity | assumption]).
    reflexivity.
  - intros a rest Ha Hr template.
    pose proof (expandSections_dotted a rest data Ha Hr) as E.
    split; [exact E|]. unfold replaceVariables. fold template in E.
    now rewrite E.
Qed.

Lemma section_name_resolution_witness :
  let data := VObj [("tags", VStr "none"); ("list", VArr [VStr "a"; VStr "b"])] in
  no_section_start "<p>" = true /\ "tags" <> "" /\
  forallb_string is_word "tags" = true /\
  occurs (closer "tags") "<b>{{.}}</b>" = false /\
  expandSections "<p>{{#tags}}<b>{{.}}</b>{{/tags}}</p>{{#list}}{{.}};{{/list}}"
                 data = Ok "<p></p>a;b;".
Proof.
  intros data.
  refine (conj eq_refl (conj _ (conj eq_refl (conj eq_refl _))));
    [discriminate|].
  exact (eq_trans
           (proj1 (section_name_resolution
                     "<p>" "tags" "<b>{{.}}</b>" "</p>{{#list}}{{.}};{{/list}}"
                     data eq_refl (fun E => String_neq_Empty E) eq_refl eq_refl))
           eq_refl).
Defined.

(* ================================================================= *)
(** ** The scope of a section item (claim C1) *)

Lemma lacks_occurs (p w : string) :
  lacks "{" w = true -> occurs (String "{" p) w = false.
Proof.
  unfold lacks. induction w as [|x w IH]; simpl; intros H.
  - reflexivity.
  - apply andb_prop in H as [Hx Hw].
    rewrite occurs_unfold, (IH Hw). simpl.
    destruct (ascii_dec "{" x) as [<-|]; [discriminate | reflexivity].
Qed.

(** Neither the self-reference nor a section end marker occurs in a
    placeholder with an identifier for path. *)
Lemma marker_occurs (c : ascii) (q key : string) :
  is_word c = false ->
  key <> "" -> forallb_string is_word key = true ->
  occurs (String "{" (String "{" (String c q))) ("{{" ++ key ++ "}}") = false.
Proof.
  intros Hc Hne Hn. destruct key as [|k key]; [congruence|].
  assert (Hk : is_word k = true) by (simpl in Hn; now apply andb_prop in Hn).
  change ("{{" ++ String k key ++ "}}")
    with (String "{" (String "{" (String k (key ++ "}}")))).
  rewrite !occurs_unfold.
  rewrite lacks_occurs.
  - simpl. case_chars; vm_compute in Hk; discriminate.
  - simpl in Hn. apply andb_prop in Hn as [_ Hn].
    rewrite lacks_append, (is_word_lacks "{" key eq_refl Hn).
    reflexivity.
Qed.




Lemma lacks_brace_simplePattern (v : string) :
  lacks "{" v = true -> simplePattern v = None.
Proof.
  intros H. unfold simplePattern.
  destruct v as [|x w]; [reflexivity|].
  pose proof (lacks_brace_prefix x w "" "{" H) as P.
  rewrite append_nil_r in P. now rewrite P.
Qed.

(** Pass 2 leaves a text without opening brace as it is. *)
Lemma replaceSimpleVariables_plain (text : string) (data : value) :
  lacks "{" text = true -> replaceSimpleVariables text data = Ok text.
Proof.
  intros H. unfold replaceSimpleVariables, replace_global.
  apply (replace_at_no_match simplePattern). intros u v ->.
  apply lacks_brace_simplePattern. now apply (lacks_drop _ u).
Qed.











(* ================================================================= *)
(** ** Rendering never throws on a convertible context (claim C2) *)

Lemma convertible_is_data_context (v : value) :
  convertible_context v = true -> data_context v = true.
Proof.
  induction v as [| |b|z|s|items IH|props IH|name] using value_ind;
    simpl; try congruence.
  - induction IH as [|x rest Hx _ IHrest]; simpl; [reflexivity|].
    intros H. apply andb_prop in H as [H1 H2].
    now rewrite (Hx H1), (IHrest H2).
  - intros H. apply andb_prop in H as [_ H].
    induction IH as [|kv rest Hx _ IHrest]; simpl; [reflexivity|].
    simpl in H. apply andb_prop in H as [H1 H2].
    now rewrite (Hx H1), (IHrest H2).
Qed.


(** The names that mappings inherit are made of letters and
    underscores, like those that the other values may inherit. *)
Lemma inherited_by_object_method_like (key : string) :
  inherited_by_object key = true -> method_like key = true.
Proof.
  unfold inherited_by_object, objectPrototypeMethods. cbn [existsb].
  repeat match goal with
         | |- context [String.eqb key ?n] =>
             destruct (String.eqb_spec key n) as [->|_]; [reflexivity|]
         end.
  simpl. discriminate.
Qed.





(* ================================================================= *)
(** ** The self-reference and dollar signs (claim C5) *)

Lemma GetSubstitution_plain (matched before after template : string) :
  lacks "$" template = true ->
  GetSubstitution matched before after template = template.
Proof.
  unfold lacks. induction template as [|c t IH]; simpl; [reflexivity|].
  intros H. apply andb_prop in H as [Hc Ht].
  destruct (Ascii.eqb c "$"); [discriminate|]. now rewrite (IH Ht).
Qed.

(** What holds of the loop body [{{.}}]: a scalar whose text has no dollar
    sign is written as it is. *)
Lemma renderItem_self_plain (item : value) :
  is_scalar item = true -> lacks "$" (scalar_text item) = true ->
  renderItem "{{.}}" item = Ok (scalar_text item).
Proof.
  intros Hs Hd. unfold renderItem. rewrite (ToString_scalar item Hs).
  cbn [bind].
  assert (E : replaceSelf "{{.}}" (scalar_text item) = Ok (scalar_text item)).
  { unfold replaceSelf, replace_global.
    rewrite (replace_at_match selfPattern _ selfPattern_sound
               "" "{{.}}" tt "{{.}}" "" eq_refl).
    rewrite (GetSubstitution_plain _ _ _ _ Hd), replace_at_nil.
    cbn [bind]. now rewrite append_nil_r. }
  rewrite E. cbn [bind].
  now destruct item.
Qed.

Lemma map_renderItem_self_plain (items : list value) :
  Forall (fun x => is_scalar x = true /\ lacks "$" (scalar_text x) = true)
         items ->
  map_result (renderItem "{{.}}") items = Ok (map scalar_text items).
Proof.
  induction 1 as [|x rest [Hs Hd] _ IH]; [reflexivity|].
  cbn [map_result map]. rewrite (renderItem_self_plain x Hs Hd), IH.
  reflexivity.
Qed.

Lemma lacks_join_empty (c : ascii) (texts : list string) :
  Forall (fun t => lacks c t = true) texts ->
  lacks c (join_empty texts) = true.
Proof.
  induction 1 as [|t rest Ht _ IH]; [reflexivity|].
  simpl. now rewrite lacks_append, Ht, IH.
Qed.

(** What holds of C5: a section over scalars whose texts have neither
    dollar sign nor opening brace, with the body [{{.}}], renders the
    concatenation of the texts in order. *)
Lemma self_reference_concatenates (name : string) (items : list value)
      (data : value) :
  name <> "" -> forallb_string is_word name = true ->
  getNestedValue data name = Ok (VArr items) ->
  Forall (fun x => is_scalar x = true /\ lacks "$" (scalar_text x) = true)
         items ->
  Forall (fun x => lacks "{" (scalar_text x) = true) items ->
  replaceVariables ("{{#" ++ name ++ "}}" ++ "{{.}}" ++ closer name) data =
  Ok (join_empty (map scalar_text items)).
Proof.
  intros Hne Hn Ha Hs Hb. unfold replaceVariables.
  assert (Ho : occurs (closer name) "{{.}}" = false).
  { unfold closer. rewrite !occurs_unfold. simpl. case_chars. }
  pose proof (expandSections_section "" name "{{.}}" "" data
                eq_refl Hne Hn Ho) as S.
  rewrite append_nil_r in S.
  change ("" ++ "{{#" ++ name ++ "}}" ++ "{{.}}" ++ closer name)
    with ("{{#" ++ name ++ "}}" ++ "{{.}}" ++ closer name) in S.
  rewrite S. clear S.
  unfold expandSection. rewrite Ha. cbn [bind].
  rewrite (map_renderItem_self_plain items Hs).
  change (expandSections "" data) with (Ok "").
  cbn [bind]. rewrite append_nil_r.
  change ("" ++ join_empty (map scalar_text items))
    with (join_empty (map scalar_text items)).
  apply replaceSimpleVariables_plain, lacks_join_empty.
  rewrite Forall_map. exact Hb.
Qed.

(** C5 at inputs on which the code departs from it: the element is given
    to [replace] as a replacement pattern, in which [$$] stands for one
    dollar sign, [$&] for the matched text and [$'] for the text after the
    match. *)
Theorem self_reference_dollar_patterns :
  let render items :=
    replaceVariables "{{#badges}}{{.}}{{/badges}}"
                     (VObj [("badges", VArr items)]) in
  render [VStr "$299"; VStr "New"] = Ok "$299New" /\
  render [VStr "$$"] = Ok "$" /\
  render [VStr "$$$"; VStr "$$$$"] = Ok "$$$$" /\
  render [VStr "$&"] = Ok "{{.}}" /\
  replaceVariables "{{#badges}}[{{.}}]{{/badges}}"
                   (VObj [("badges", VArr [VStr "a$'b"])]) = Ok "[a]b]".
Proof. repeat split. Qed.

(* ================================================================= *)
(** ** Replacing by a string ([lib/validators.js]) *)

Lemma span_stops (p : ascii -> bool) (s a b : string) :
  span p s = (a, b) -> stops p b = true.
Proof.
  revert a b; induction s as [|c s IH]; simpl; intros a b H.
  - now inversion H.
  - destruct (p c) eqn:Ec.
    + destruct (span p s) as [a' b'] eqn:E. inversion H; subst.
      now apply (IH a').
    + inversion H; subst. simpl. now rewrite Ec.
Qed.

Lemma unsafePattern_sound s m matched rest :
  unsafePattern s = Some (m, matched, rest) ->
  s = matched ++ rest /\ matched <> "".
Proof.
  destruct s as [|c s]; simpl; [discriminate|].
  destruct (is_unsafe c); [|discriminate].
  intros H; inversion H; subst. split; [reflexivity | discriminate].
Qed.

Lemma runPattern_sound p s m matched rest :
  runPattern p s = Some (m, matched, rest) ->
  s = matched ++ rest /\ matched <> "".
Proof.
  unfold runPattern. destruct (span p s) as [run r] eqn:E.
  destruct run as [|c run]; [discriminate|].
  intros H; inversion H; subst. split; [|discriminate].
  now apply span_append in E.
Qed.

Lemma dotdotPattern_sound s m matched rest :
  dotdotPattern s = Some (m, matched, rest) ->
  s = matched ++ rest /\ matched <> "".
Proof.
  unfold dotdotPattern. destruct (prefix ".." s) eqn:E; [|discriminate].
  intros H; inversion H; subst. split; [|discriminate].
  now apply prefix_drop in E.
Qed.

Section ReplaceString.

Context {M : Type}.
Variable pattern : string -> option (M * string * string).
Hypothesis pattern_sound : forall s m matched rest,
    pattern s = Some (m, matched, rest) -> s = matched ++ rest /\ matched <> "".
Variable replacement : string.
Hypothesis replacement_plain : lacks "$" replacement = true.

Lemma replaceString_nil : replaceString pattern replacement "" = Ok "".
Proof. reflexivity. Qed.

(** At a match the replacement is written and the scan goes on after the
    match. *)
Lemma replaceString_match s m matched rest :
  pattern s = Some (m, matched, rest) ->
  replaceString pattern replacement s =
  (out <- replaceString pattern replacement rest ;; Ok (replacement ++ out)).
Proof.
  intros E. unfold replaceString, replace_global.
  rewrite (replace_at_match pattern _ pattern_sound "" s m matched rest E).
  rewrite (GetSubstitution_plain _ _ _ _ replacement_plain). cbn [bind].
  rewrite (replace_at_before pattern _ pattern_sound) with (b' := "");
    [reflexivity|].
  intros. now rewrite !(GetSubstitution_plain _ _ _ _ replacement_plain).
Qed.

(** Elsewhere the character is copied. *)
Lemma replaceString_skip c s' :
  pattern (String c s') = None ->
  replaceString pattern replacement (String c s') =
  (out <- replaceString pattern replacement s' ;; Ok (String c out)).
Proof.
  intros E. unfold replaceString, replace_global.
  rewrite (replace_at_skip pattern _ "" c s' E).
  rewrite (replace_at_before pattern _ pattern_sound) with (b' := "");
    [reflexivity|].
  intros. now rewrite !(GetSubstitution_plain _ _ _ _ replacement_plain).
Qed.

End ReplaceString.

(** The first replacement of [validateCompanyName] removes the unsafe
    characters. *)
Lemma replaceString_unsafe (s : string) :
  replaceString unsafePattern "" s = Ok (remove is_unsafe s).
Proof.
  induction s as [|c s IH]; [reflexivity|].
  simpl remove. destruct (is_unsafe c) eqn:E.
  - rewrite (replaceString_match unsafePattern unsafePattern_sound "" eq_refl
               (String c s) tt (String c "") s) by (simpl; now rewrite E).
    rewrite IH. reflexivity.
  - rewrite (replaceString_skip unsafePattern unsafePattern_sound "" eq_refl)
      by (simpl; now rewrite E).
    rewrite IH. reflexivity.
Qed.

Lemma squeeze_run (p : ascii -> bool) (rep run rest : string) :
  run <> "" -> forallb_string p run = true -> stops p rest = true ->
  squeeze p rep (run ++ rest) = rep ++ squeeze p rep rest.
Proof.
  intros Hne Hrun Hrest. induction run as [|c run IH]; [congruence|].
  simpl in Hrun. apply andb_prop in Hrun as [Hc Hrun].
  destruct run as [|d run].
  - simpl. rewrite Hc. destruct rest as [|e rest].
    + simpl. now rewrite append_nil_r.
    + simpl in Hrest. now destruct (p e).
  - change (String c (String d run) ++ rest)
      with (String c (String d run ++ rest)).
    cbn [squeeze]. rewrite Hc.
    change (String d run ++ rest) with (String d (run ++ rest)).
    cbn iota. simpl in Hrun. destruct (p d) eqn:Ed; [|discriminate].
    apply IH; [discriminate | simpl; now rewrite Ed].
Qed.

Lemma squeeze_skip (p : ascii -> bool) (rep : string) c s :
  p c = false -> squeeze p rep (String c s) = String c (squeeze p rep s).
Proof. intros H. simpl. now rewrite H. Qed.

(** Replacing the runs of a class by [rep]. *)
Lemma replaceString_run (p : ascii -> bool) (rep s : string) :
  lacks "$" rep = true ->
  replaceString (runPattern p) rep s = Ok (squeeze p rep s).
Proof.
  intros Hrep. induction s as [s IH] using string_length_ind.
  destruct s as [|c s']; [reflexivity|].
  destruct (runPattern p (String c s')) as [[[m run] rest]|] eqn:E.
  - rewrite (replaceString_match (runPattern p) (runPattern_sound p) rep Hrep
               _ _ _ _ E).
    pose proof (exec_shrinks _ (runPattern_sound p) _ _ _ _ E) as Hlt.
    rewrite (IH rest Hlt). cbn [bind].
    unfold runPattern in E.
    destruct (span p (String c s')) as [run' rest'] eqn:Es.
    destruct run' as [|x run']; [discriminate|]. inversion E; subst.
    rewrite (span_append _ _ _ _ Es).
    rewrite squeeze_run;
      [reflexivity | discriminate | now apply span_forallb in Es
      | now apply span_stops in Es].
  - rewrite (replaceString_skip (runPattern p) (runPattern_sound p) rep Hrep
               _ _ E).
    rewrite (IH s') by (simpl; lia). cbn [bind].
    rewrite squeeze_skip; [reflexivity|].
    unfold runPattern in E. simpl in E. destruct (p c); [|reflexivity].
    now destruct (span p s').
Qed.

Lemma removeDotDot_match (s : string) :
  removeDotDot (".." ++ s) = removeDotDot s.
Proof. reflexivity. Qed.

Lemma removeDotDot_skip c s :
  prefix ".." (String c s) = false ->
  removeDotDot (String c s) = String c (removeDotDot s).
Proof.
  destruct s as [|d s]; [reflexivity|].
  simpl. intros H.
  destruct (Ascii.eqb_spec c ".") as [->|]; [|reflexivity].
  destruct (Ascii.eqb_spec d ".") as [->|]; [|reflexivity].
  revert H. case_chars.
Qed.

(** The first replacement of [sanitizePath] removes the pairs of dots, from
    left to right. *)
Lemma replaceString_dotdot (s : string) :
  replaceString dotdotPattern "" s = Ok (removeDotDot s).
Proof.
  induction s as [s IH] using string_length_ind.
  destruct s as [|c s']; [reflexivity|].
  destruct (prefix ".." (String c s')) eqn:E.
  - pose proof (prefix_drop _ _ E) as D. cbn [String.length] in D.
    rewrite (replaceString_match dotdotPattern dotdotPattern_sound "" eq_refl
               (String c s') tt ".." (drop 2 (String c s')))
      by (unfold dotdotPattern; now rewrite E).
    rewrite IH.
    + cbn [bind]. rewrite D at 2. now rewrite removeDotDot_match.
    + rewrite D at 2. rewrite length_append. simpl. lia.
  - rewrite (replaceString_skip dotdotPattern dotdotPattern_sound "" eq_refl)
      by (unfold dotdotPattern; now rewrite E).
    rewrite (IH s') by (simpl; lia). cbn [bind].
    now rewrite removeDotDot_skip.
Qed.

(* ================================================================= *)
(** ** Character classes and [trim] *)

Ltac all_chars c :=
  destruct c as [[] [] [] [] [] [] [] []]; try reflexivity; try discriminate.

Lemma lower_char_not_upper (c : ascii) : is_upper (lower_char c) = false.
Proof. all_chars c. Qed.

Lemma lower_char_unsafe (c : ascii) : is_unsafe (lower_char c) = is_unsafe c.
Proof. all_chars c. Qed.

Lemma lower_char_space (c : ascii) : is_space (lower_char c) = is_space c.
Proof. all_chars c. Qed.

Lemma lower_char_fixed (c : ascii) : is_upper c = false -> lower_char c = c.
Proof. unfold lower_char. now intros ->. Qed.

Lemma alnum_not_space (c : ascii) : is_alnum c = true -> is_space c = false.
Proof. all_chars c. Qed.

Lemma free_of_cons p c s :
  free_of p (String c s) = (negb (p c) && free_of p s)%bool.
Proof. reflexivity. Qed.

Lemma free_of_append p a b :
  free_of p (a ++ b) = (free_of p a && free_of p b)%bool.
Proof.
  unfold free_of. induction a as [|x a IH]; simpl; [reflexivity|].
  now rewrite IH, andb_assoc.
Qed.

Lemma span_all (p : ascii -> bool) (s : string) :
  forallb_string p s = true -> span p s = (s, "").
Proof.
  induction s as [|c s IH]; simpl; [reflexivity|].
  intros H. apply andb_prop in H as [Hc Hs]. now rewrite Hc, (IH Hs).
Qed.

Lemma span_stopped (p : ascii -> bool) (s : string) :
  stops p s = true -> span p s = ("", s).
Proof.
  destruct s as [|c s]; simpl; [reflexivity|].
  now destruct (p c).
Qed.

Lemma trimStart_stops (s : string) : stops is_space (trimStart s) = true.
Proof.
  unfold trimStart. destruct (span is_space s) as [a b] eqn:E.
  now apply span_stops in E.
Qed.

Lemma trimStart_fixed (s : string) :
  stops is_space s = true -> trimStart s = s.
Proof. intros H. unfold trimStart. now rewrite span_stopped. Qed.

Lemma trimStart_pad (ws s : string) :
  forallb_string is_space ws = true -> trimStart (ws ++ s) = trimStart s.
Proof.
  unfold trimStart. induction ws as [|c ws IH]; simpl; [reflexivity|].
  intros H. apply andb_prop in H as [Hc Hws]. rewrite Hc.
  specialize (IH Hws). now destruct (span is_space (ws ++ s)).
Qed.

Lemma trimStart_append (s x : string) :
  trimStart (s ++ x) =
  if String.eqb (trimStart s) "" then trimStart x else trimStart s ++ x.
Proof.
  unfold trimStart. induction s as [|c s IH]; simpl; [reflexivity|].
  destruct (is_space c); [|reflexivity].
  destruct (span is_space (s ++ x)) as [a b].
  now destruct (span is_space s) as [a' b'].
Qed.

Lemma trimEnd_all_space (ws : string) :
  forallb_string is_space ws = true -> trimEnd ws = "".
Proof.
  induction ws as [|c ws IH]; simpl; [reflexivity|].
  intros H. apply andb_prop in H as [Hc Hws]. now rewrite (IH Hws), Hc.
Qed.

Lemma trimEnd_pad (s ws : string) :
  forallb_string is_space ws = true -> trimEnd (s ++ ws) = trimEnd s.
Proof.
  intros H. induction s as [|c s IH]; simpl.
  - now apply trimEnd_all_space.
  - now rewrite IH.
Qed.

Lemma trimEnd_head (c : ascii) (s : string) :
  is_space c = false -> trimEnd (String c s) = String c (trimEnd s).
Proof. intros H. simpl. rewrite H. now destruct (trimEnd s). Qed.

Lemma trimEnd_stops (s : string) :
  stops is_space s = true -> stops is_space (trimEnd s) = true.
Proof.
  destruct s as [|c s]; [reflexivity|].
  simpl stops at 1. intros H. apply negb_true_iff in H.
  rewrite (trimEnd_head c s H). simpl. now rewrite H.
Qed.

Lemma trimEnd_idempotent (s : string) : trimEnd (trimEnd s) = trimEnd s.
Proof.
  induction s as [|c s IH]; [reflexivity|].
  simpl. destruct (trimEnd s) as [|d u] eqn:E.
  - destruct (is_space c) eqn:Ec; [reflexivity|]. simpl. now rewrite Ec.
  - change (trimEnd (String c (String d u)))
      with (match trimEnd (String d u) with
            | EmptyString => if is_space c then "" else String c ""
            | String e t => String c (String e t)
            end).
    now rewrite IH.
Qed.

Lemma trimEnd_decompose (s : string) :
  exists trail, s = trimEnd s ++ trail /\ forallb_string is_space trail = true.
Proof.
  induction s as [|c s (trail & E & H)]; [now exists ""|].
  simpl. destruct (trimEnd s) as [|d u] eqn:Eu.
  - destruct (is_space c) eqn:Ec.
    + exists (String c s). split; [reflexivity|].
      simpl. rewrite Ec. simpl in E. now rewrite E.
    + exists trail. split; [|assumption]. simpl. simpl in E. now rewrite <- E.
  - exists trail. split; [|assumption].
    change (String c (String d u) ++ trail) with (String c (String d u ++ trail)).
    now rewrite <- E.
Qed.

Lemma trimEnd_free (s : string) : free_of is_space s = true -> trimEnd s = s.
Proof.
  induction s as [|c s IH]; [reflexivity|].
  rewrite free_of_cons. intros H. apply andb_prop in H as [Hc Hs].
  apply negb_true_iff in Hc. now rewrite (trimEnd_head c s Hc), (IH Hs).
Qed.

Lemma free_stops p s : free_of p s = true -> stops p s = true.
Proof.
  destruct s as [|c s]; [reflexivity|].
  rewrite free_of_cons. intros H. now apply andb_prop in H.
Qed.

(** [trim] ignores white space around its argument. *)
Lemma trim_pad (ws1 s ws2 : string) :
  forallb_string is_space ws1 = true -> forallb_string is_space ws2 = true ->
  trim (ws1 ++ s ++ ws2) = trim s.
Proof.
  intros H1 H2. unfold trim.
  rewrite (trimStart_pad ws1 _ H1), trimStart_append.
  destruct (String.eqb_spec (trimStart s) "") as [E|E].
  - rewrite E. unfold trimStart. rewrite (span_all _ _ H2). reflexivity.
  - now apply trimEnd_pad.
Qed.

(** A string is its trimmed form between two runs of white space. *)
Lemma trim_decompose (s : string) :
  exists ws1 ws2,
    s = ws1 ++ trim s ++ ws2 /\
    forallb_string is_space ws1 = true /\ forallb_string is_space ws2 = true.
Proof.
  unfold trim, trimStart.
  destruct (span is_space s) as [lead t] eqn:E.
  destruct (trimEnd_decompose t) as (trail & Et & Ht).
  exists lead, trail. repeat split.
  - simpl snd. rewrite <- Et. now apply span_append in E.
  - now apply span_forallb in E.
  - exact Ht.
Qed.

Lemma trim_free (s : string) : free_of is_space s = true -> trim s = s.
Proof.
  intros H. unfold trim.
  rewrite (trimStart_fixed s (free_stops _ _ H)). now apply trimEnd_free.
Qed.

Lemma trim_idempotent (s : string) : trim (trim s) = trim s.
Proof.
  unfold trim.
  rewrite (trimStart_fixed (trimEnd (trimStart s)))
    by apply trimEnd_stops, trimStart_stops.
  apply trimEnd_idempotent.
Qed.

Lemma blank_trim (s : string) : blank s = String.eqb (trim s) "".
Proof.
  unfold blank. destruct s as [|c s]; [reflexivity|].
  cbn [String.eqb orb]. now destruct (trim (String c s)).
Qed.

(* ================================================================= *)
(** ** [validateCompanyName] *)

Lemma length_zero (s : string) :
  Nat.eqb (String.length s) 0 = String.eqb s "".
Proof. now destruct s. Qed.

Lemma validateCompanyName_eq (companyName : string) :
  validateCompanyName companyName =
  Ok (if String.eqb (trim companyName) ""
      then rejectedName "Company name cannot be empty"
      else if String.eqb (slug companyName) ""
           then rejectedName "Company name contains only invalid characters"
           else acceptedName (slug companyName)).
Proof.
  unfold validateCompanyName. rewrite blank_trim.
  destruct (String.eqb (trim companyName) ""); [reflexivity|].
  rewrite replaceString_unsafe. cbn [bind].
  unfold spacesPattern. rewrite replaceString_run by reflexivity. cbn [bind].
  fold (slug companyName). rewrite length_zero.
  now destruct (String.eqb (slug companyName) "").
Qed.

Lemma remove_free p s : free_of p (remove p s) = true.
Proof.
  induction s as [|c s IH]; [reflexivity|].
  simpl. destruct (p c) eqn:E; [exact IH|].
  rewrite free_of_cons, E, IH. reflexivity.
Qed.

Lemma remove_fixed p s : free_of p s = true -> remove p s = s.
Proof.
  induction s as [|c s IH]; [reflexivity|].
  rewrite free_of_cons. intros H. apply andb_prop in H as [Hc Hs].
  apply negb_true_iff in Hc. simpl. now rewrite Hc, (IH Hs).
Qed.

Lemma remove_empty p s : remove p s = "" <-> forallb_string p s = true.
Proof.
  induction s as [|c s IH]; simpl; [tauto|].
  destruct (p c); simpl; [exact IH|]. split; discriminate.
Qed.

Lemma squeeze_class_free p rep s :
  free_of p rep = true -> free_of p (squeeze p rep s) = true.
Proof.
  intros Hrep. induction s as [|c s IH]; [reflexivity|].
  simpl. destruct (p c) eqn:Ec.
  - destruct s as [|d s]; [exact Hrep|].
    destruct (p d); [exact IH|]. now rewrite free_of_append, Hrep, IH.
  - now rewrite free_of_cons, Ec, IH.
Qed.

Lemma squeeze_free q p rep s :
  free_of q rep = true -> free_of q s = true ->
  free_of q (squeeze p rep s) = true.
Proof.
  intros Hrep. induction s as [|c s IH]; [reflexivity|].
  rewrite free_of_cons. intros H. apply andb_prop in H as [Hc Hs].
  specialize (IH Hs). simpl. destruct (p c).
  - destruct s as [|d s]; [exact Hrep|].
    destruct (p d); [exact IH|]. now rewrite free_of_append, Hrep, IH.
  - now rewrite free_of_cons, Hc, IH.
Qed.

Lemma squeeze_fixed p rep s : free_of p s = true -> squeeze p rep s = s.
Proof.
  induction s as [|c s IH]; [reflexivity|].
  rewrite free_of_cons. intros H. apply andb_prop in H as [Hc Hs].
  apply negb_true_iff in Hc. simpl. now rewrite Hc, (IH Hs).
Qed.

Lemma squeeze_empty p rep s :
  rep <> "" -> squeeze p rep s = "" -> s = "".
Proof.
  intros Hrep. induction s as [|c s IH]; [reflexivity|].
  simpl. destruct (p c); [|discriminate].
  destruct s as [|d s]; [congruence|].
  destruct (p d).
  - intros H. specialize (IH H). discriminate.
  - destruct rep; [congruence | discriminate].
Qed.

Lemma toLowerCase_empty s : toLowerCase s = "" -> s = "".
Proof. destruct s; [reflexivity | discriminate]. Qed.

Lemma toLowerCase_lower s : free_of is_upper (toLowerCase s) = true.
Proof.
  induction s as [|c s IH]; [reflexivity|].
  simpl. now rewrite free_of_cons, lower_char_not_upper, IH.
Qed.

Lemma toLowerCase_unsafe s :
  free_of is_unsafe (toLowerCase s) = free_of is_unsafe s.
Proof.
  induction s as [|c s IH]; [reflexivity|].
  simpl. now rewrite !free_of_cons, lower_char_unsafe, IH.
Qed.

Lemma toLowerCase_space s :
  free_of is_space (toLowerCase s) = free_of is_space s.
Proof.
  induction s as [|c s IH]; [reflexivity|].
  simpl. now rewrite !free_of_cons, lower_char_space, IH.
Qed.

Lemma toLowerCase_fixed s : free_of is_upper s = true -> toLowerCase s = s.
Proof.
  induction s as [|c s IH]; [reflexivity|].
  rewrite free_of_cons. intros H. apply andb_prop in H as [Hc Hs].
  apply negb_true_iff in Hc. simpl.
  now rewrite (lower_char_fixed c Hc), (IH Hs).
Qed.

Lemma slug_safe (companyName : string) :
  free_of is_unsafe (slug companyName) = true /\
  free_of is_space (slug companyName) = true /\
  free_of is_upper (slug companyName) = true.
Proof.
  unfold slug. repeat split.
  - rewrite toLowerCase_unsafe. apply squeeze_free; [reflexivity|].
    apply remove_free.
  - rewrite toLowerCase_space. now apply squeeze_class_free.
  - apply toLowerCase_lower.
Qed.

Lemma slug_fixed (s : string) :
  free_of is_unsafe s = true -> free_of is_space s = true ->
  free_of is_upper s = true -> slug s = s.
Proof.
  intros Hu Hs Hc. unfold slug.
  now rewrite (trim_free s Hs), (remove_fixed _ s Hu), (squeeze_fixed _ _ s Hs),
    (toLowerCase_fixed s Hc).
Qed.

Lemma acceptedName_slug (companyName s : string) :
  validateCompanyName companyName = Ok (acceptedName s) ->
  s = slug companyName /\ s <> "".
Proof.
  rewrite validateCompanyName_eq.
  destruct (String.eqb (trim companyName) ""); [discriminate|].
  destruct (String.eqb_spec (slug companyName) "") as [E|E]; [discriminate|].
  intros H. inversion H. now split.
Qed.

Lemma trim_empty (s : string) :
  trim s = "" <-> forallb_string is_space s = true.
Proof.
  split.
  - intros E. destruct (trim_decompose s) as (w1 & w2 & D & H1 & H2).
    rewrite E in D. rewrite D. simpl.
    clear D. induction w1 as [|c w1 IH]; [exact H2|].
    simpl in *. apply andb_prop in H1 as [Hc H1]. now rewrite Hc, IH.
  - intros H. unfold trim, trimStart. now rewrite (span_all _ _ H).
Qed.

(** X1: the folder name [validateCompanyName] accepts is never empty and
    contains none of the nine unsafe characters (so no slash and no
    backslash), no white space and no capital letter. *)
Theorem validateCompanyName_sanitized_is_safe (companyName s : string) :
  validateCompanyName companyName = Ok (acceptedName s) ->
  s <> "" /\ free_of is_unsafe s = true /\ free_of is_space s = true /\
  free_of is_upper s = true.
Proof.
  intros H. apply acceptedName_slug in H as [-> Hne].
  split; [exact Hne | apply slug_safe].
Qed.

Lemma validateCompanyName_sanitized_is_safe_witness :
  validateCompanyName "  Acme / Travel  Co?  " =
    Ok (acceptedName "acme-travel-co") /\
  "acme-travel-co" <> "" /\ free_of is_unsafe "acme-travel-co" = true /\
  free_of is_space "acme-travel-co" = true /\
  free_of is_upper "acme-travel-co" = true.
Proof.
  split; [reflexivity|].
  exact (validateCompanyName_sanitized_is_safe
           "  Acme / Travel  Co?  " "acme-travel-co" eq_refl).
Defined.

(** X2: [validateCompanyName] rejects exactly the blank names and the
    names whose trimmed form consists of unsafe characters only; every
    other name is accepted, with its [slug].  A name of unsafe characters
    around white space is therefore accepted, as a hyphen. *)
Theorem validateCompanyName_verdict (companyName : string) :
  (validateCompanyName companyName =
   Ok (rejectedName "Company name cannot be empty")
   <-> forallb_string is_space companyName = true)
  /\ (validateCompanyName companyName =
      Ok (rejectedName "Company name contains only invalid characters")
      <-> trim companyName <> "" /\
          forallb_string is_unsafe (trim companyName) = true)
  /\ (validateCompanyName companyName = Ok (acceptedName (slug companyName))
      <-> trim companyName <> "" /\
          forallb_string is_unsafe (trim companyName) = false).
Proof.
  rewrite validateCompanyName_eq.
  assert (Hs : slug companyName = "" <->
               forallb_string is_unsafe (trim companyName) = true).
  { unfold slug. rewrite <- remove_empty. split.
    - intros H. apply toLowerCase_empty in H.
      now apply squeeze_empty in H.
    - now intros ->. }
  pose proof (trim_empty companyName) as Ht.
  unfold rejectedName, acceptedName.
  destruct (String.eqb_spec (trim companyName) "") as [E|E];
    [|destruct (String.eqb_spec (slug companyName) "") as [F|F]];
    (split; [|split]); split; intros H;
    try discriminate H; try reflexivity; try tauto;
    try solve [ apply Ht in H; congruence
              | apply proj2 in H; apply Hs in F; congruence
              | apply proj2 in H; apply Hs in H; congruence
              | split; [exact E | now apply Hs] ].
  split; [exact E|].
  destruct (forallb_string is_unsafe (trim companyName)) eqn:U;
    [|reflexivity].
  exfalso. apply F. now apply Hs.
Qed.

(** X3: validating an accepted folder name again accepts it unchanged:
    the sanitising of [validateCompanyName] is idempotent. *)
Theorem validateCompanyName_round_trip (companyName s : string) :
  validateCompanyName companyName = Ok (acceptedName s) ->
  validateCompanyName s = Ok (acceptedName s).
Proof.
  intros H. apply acceptedName_slug in H as [-> Hne].
  destruct (slug_safe companyName) as (Hu & Hs & Hc).
  set (s := slug companyName) in *.
  rewrite validateCompanyName_eq, (slug_fixed s Hu Hs Hc), (trim_free s Hs).
  now destruct (String.eqb_spec s "").
Qed.

Lemma validateCompanyName_round_trip_witness :
  validateCompanyName "Acme: Travel & Co" = Ok (acceptedName "acme-travel-&-co")
  /\ validateCompanyName "acme-travel-&-co" = Ok (acceptedName "acme-travel-&-co").
Proof.
  split; [reflexivity|].
  exact (validateCompanyName_round_trip "Acme: Travel & Co" "acme-travel-&-co"
           eq_refl).
Defined.

(* ================================================================= *)
(** ** The other validators *)

Lemma blank_pad (ws1 s ws2 : string) :
  forallb_string is_space ws1 = true -> forallb_string is_space ws2 = true ->
  blank (ws1 ++ s ++ ws2) = blank s.
Proof. intros H1 H2. now rewrite !blank_trim, trim_pad. Qed.

(** X4: the five validators ignore white space around their argument: a
    padded input gets the verdict, and the folder name, of the input
    itself. *)
Theorem validators_ignore_outer_white_space (ws1 s ws2 : string) :
  forallb_string is_space ws1 = true -> forallb_string is_space ws2 = true ->
  validateCompanyName (ws1 ++ s ++ ws2) = validateCompanyName s /\
  validateWriteKey (ws1 ++ s ++ ws2) = validateWriteKey s /\
  validateApiToken (ws1 ++ s ++ ws2) = validateApiToken s /\
  validateSpaceId (ws1 ++ s ++ ws2) = validateSpaceId s /\
  validateIndustry (ws1 ++ s ++ ws2) = validateIndustry s.
Proof.
  intros H1 H2.
  unfold validateCompanyName, validateWriteKey, validateApiToken,
    validateSpaceId, validateIndustry.
  rewrite (blank_pad ws1 s ws2 H1 H2), (trim_pad ws1 s ws2 H1 H2).
  repeat split.
Qed.

Lemma validators_ignore_outer_white_space_witness :
  let tab := String "009" "" in
  let nbsp := String "160" "" in
  forallb_string is_space (" " ++ tab) = true /\
  forallb_string is_space (nbsp ++ " ") = true /\
  validateWriteKey ((" " ++ tab) ++ "abc123" ++ (nbsp ++ " ")) =
  validateWriteKey "abc123" /\
  validateWriteKey "abc123" = Ok accepted.
Proof.
  intros tab nbsp.
  refine (conj eq_refl (conj eq_refl (conj _ eq_refl))).
  exact (proj1 (proj2 (validators_ignore_outer_white_space
                         (" " ++ tab) "abc123" (nbsp ++ " ")
                         eq_refl eq_refl))).
Defined.

Lemma alnumTest_spec (s : string) :
  alnumTest s = true <-> s <> "" /\ forallb_string is_alnum s = true.
Proof.
  unfold alnumTest. destruct (span is_alnum s) as [run rest] eqn:E.
  split.
  - intros H. apply andb_prop in H as [Hr He].
    apply String.eqb_eq in He. subst rest.
    pose proof (span_forallb _ _ _ _ E) as F.
    apply span_append in E. rewrite append_nil_r in E. subst run.
    split; [|exact F]. intros ->. discriminate.
  - intros [Hne H]. rewrite (span_all _ _ H) in E. injection E as <- <-.
    destruct s; [congruence | reflexivity].
Qed.

Lemma alnum_free_of_space (s : string) :
  forallb_string is_alnum s = true -> free_of is_space s = true.
Proof.
  induction s as [|c s IH]; [reflexivity|].
  simpl. intros H. apply andb_prop in H as [Hc Hs].
  now rewrite free_of_cons, (alnum_not_space c Hc), (IH Hs).
Qed.

(** X5: [validateWriteKey] accepts exactly the keys that are a non-empty
    run of ASCII letters and digits between two runs of white space. *)
Theorem validateWriteKey_accepts (writeKey : string) :
  validateWriteKey writeKey = Ok accepted <->
  exists ws1 key ws2,
    writeKey = ws1 ++ key ++ ws2 /\
    forallb_string is_space ws1 = true /\
    forallb_string is_space ws2 = true /\
    key <> "" /\ forallb_string is_alnum key = true.
Proof.
  unfold validateWriteKey. rewrite blank_trim. split.
  - destruct (String.eqb (trim writeKey) ""); [discriminate|].
    destruct (alnumTest (trim writeKey)) eqn:T; [|discriminate].
    intros _. apply alnumTest_spec in T as [Hne Ha].
    destruct (trim_decompose writeKey) as (w1 & w2 & D & H1 & H2).
    now exists w1, (trim writeKey), w2.
  - intros (w1 & key & w2 & -> & H1 & H2 & Hne & Ha).
    rewrite (trim_pad w1 key w2 H1 H2),
      (trim_free key (alnum_free_of_space key Ha)).
    destruct (String.eqb_spec key ""); [congruence|].
    assert (T : alnumTest key = true) by now apply alnumTest_spec.
    now rewrite T.
Qed.

Lemma trim_spa (rest : string) :
  exists rest', trim ("spa_" ++ rest) = "spa_" ++ rest'.
Proof.
  unfold trim. rewrite trimStart_fixed by reflexivity.
  change ("spa_" ++ rest)
    with (String "s" (String "p" (String "a" (String "_" rest)))).
  rewrite !trimEnd_head by reflexivity.
  now exists (trimEnd rest).
Qed.

(** X6: [validateSpaceId] accepts exactly the identifiers in which [spa_]
    comes first after leading white space; nothing has to follow it. *)
Theorem validateSpaceId_accepts (spaceId : string) :
  validateSpaceId spaceId = Ok accepted <->
  exists ws rest,
    spaceId = ws ++ "spa_" ++ rest /\ forallb_string is_space ws = true.
Proof.
  unfold validateSpaceId. rewrite blank_trim. split.
  - destruct (String.eqb (trim spaceId) ""); [discriminate|].
    destruct (prefix "spa_" (trim spaceId)) eqn:P; [|discriminate].
    intros _. apply prefix_drop in P.
    destruct (trim_decompose spaceId) as (w1 & w2 & D & H1 & H2).
    exists w1, (drop (String.length "spa_") (trim spaceId) ++ w2).
    split; [|exact H1].
    rewrite D at 1. rewrite P at 1. now rewrite !append_assoc.
  - intros (ws & rest & -> & H).
    pose proof (trim_pad ws ("spa_" ++ rest) "" H eq_refl) as T.
    rewrite append_nil_r in T. rewrite T.
    destruct (trim_spa rest) as [rest' ->].
    now rewrite prefix_append.
Qed.

(** X7: [validateApiToken] and [validateIndustry] reject exactly the
    inputs made of white space only, the empty one included; no other
    format is checked. *)
Theorem blank_inputs_are_rejected (s : string) :
  (validateApiToken s = Ok (rejected "Profiles API Token cannot be empty")
   <-> forallb_string is_space s = true)
  /\ (validateApiToken s = Ok accepted <-> forallb_string is_space s = false)
  /\ (validateIndustry s = Ok (rejected "Industry cannot be empty")
      <-> forallb_string is_space s = true)
  /\ (validateIndustry s = Ok accepted <-> forallb_string is_space s = false).
Proof.
  unfold validateApiToken, validateIndustry. rewrite blank_trim.
  pose proof (trim_empty s) as Ht.
  destruct (String.eqb_spec (trim s) "") as [E|E];
    destruct (forallb_string is_space s) eqn:F;
    repeat split; intros H; try discriminate H; try reflexivity;
    try tauto; try (exfalso; tauto).
  - apply Ht in E. congruence.
  - apply Ht in E. congruence.
Qed.

(* ================================================================= *)
(** ** [sanitizePath] *)

Lemma sanitizePath_eq (path : string) :
  sanitizePath path = Ok (cleanPath path).
Proof.
  unfold sanitizePath, cleanPath.
  destruct (String.eqb_spec path "") as [->|_]; [reflexivity|].
  rewrite replaceString_dotdot. cbn [bind].
  unfold slashesPattern. rewrite replaceString_run by reflexivity.
  reflexivity.
Qed.

Lemma occurs_nil (c : ascii) (pat : string) : occurs (String c pat) "" = false.
Proof. reflexivity. Qed.

(** Two equal characters in a row. *)
Lemma occurs_pair (c x : ascii) (s : string) :
  occurs (String c (String c "")) (String x s) =
  ((Ascii.eqb x c && head_is c s) || occurs (String c (String c "")) s)%bool.
Proof.
  rewrite occurs_unfold. f_equal.
  destruct s as [|y s]; simpl.
  - destruct (ascii_dec c x); [|now rewrite andb_false_r].
    now rewrite andb_false_r.
  - destruct (ascii_dec c x) as [<-|N].
    + rewrite Ascii.eqb_refl. simpl.
      destruct (ascii_dec c y) as [<-|N'].
      * rewrite Ascii.eqb_refl. now rewrite prefix_nil.
      * apply not_eq_sym in N'. apply Ascii.eqb_neq in N'. now rewrite N'.
    + apply not_eq_sym in N. apply Ascii.eqb_neq in N. now rewrite N.
Qed.

Lemma prefix_append_true (pat m b : string) :
  prefix pat m = true -> prefix pat (m ++ b) = true.
Proof.
  revert m. induction pat as [|a pat IH]; intros m H.
  - apply prefix_nil.
  - destruct m as [|x m]; simpl in *; [discriminate|].
    destruct (ascii_dec a x); [now apply IH | discriminate].
Qed.

Lemma occurs_prefix_part (pat m b : string) :
  occurs pat (m ++ b) = false -> occurs pat m = false.
Proof.
  induction m as [|x m IH]; intros H.
  - change ("" ++ b) with b in H.
    unfold occurs. rewrite find_sub_eq.
    destruct (prefix pat "") eqn:P; [|reflexivity].
    apply (prefix_append_true pat "" b) in P. change ("" ++ b) with b in P.
    unfold occurs in H. rewrite find_sub_eq in H. now rewrite P in H.
  - change (String x m ++ b) with (String x (m ++ b)) in H.
    apply occurs_cons in H as [P H].
    rewrite occurs_unfold, (IH H), orb_false_r.
    destruct (prefix pat (String x m)) eqn:Q; [|reflexivity].
    apply (prefix_append_true _ _ b) in Q.
    change (String x m ++ b) with (String x (m ++ b)) in Q. congruence.
Qed.

Lemma occurs_suffix_part (pat a m : string) :
  occurs pat (a ++ m) = false -> occurs pat m = false.
Proof.
  induction a as [|x a IH]; [trivial|].
  intros H. change (String x a ++ m) with (String x (a ++ m)) in H.
  apply occurs_cons in H as [_ H]. now apply IH.
Qed.

(** What does not occur in a string does not occur in its trimmed
    form. *)
Lemma occurs_trim (pat s : string) :
  occurs pat s = false -> occurs pat (trim s) = false.
Proof.
  intros H. destruct (trim_decompose s) as (w1 & w2 & D & _ & _).
  rewrite D in H. apply occurs_suffix_part in H.
  now apply occurs_prefix_part in H.
Qed.

Lemma removeDotDot_head (s : string) :
  head_is "." (removeDotDot s) = true -> head_is "." s = true.
Proof.
  destruct s as [|c [|d s]]; simpl; try tauto.
  destruct (Ascii.eqb_spec c ".") as [->|]; simpl; [tauto|].
  intros H. now apply Ascii.eqb_eq in H.
Qed.

Lemma removeDotDot_cases (s : string) :
  (exists s', s = ".." ++ s' /\ removeDotDot s = removeDotDot s') \/
  s = "" \/
  (exists c s', s = String c s' /\ prefix ".." s = false /\
                removeDotDot s = String c (removeDotDot s')).
Proof.
  destruct s as [|c s']; [now right; left|].
  destruct (prefix ".." (String c s')) eqn:P.
  - left. apply prefix_drop in P. cbn [String.length] in P.
    exists (drop 2 (String c s')). split; [exact P|].
    rewrite P at 1. apply removeDotDot_match.
  - right; right. exists c, s'. now rewrite removeDotDot_skip.
Qed.

Lemma prefix_dotdot (c : ascii) (s : string) :
  prefix ".." (String c s) = (Ascii.eqb c "." && head_is "." s)%bool.
Proof.
  destruct s as [|d s]; simpl.
  - destruct (ascii_dec "." c); now rewrite andb_false_r.
  - destruct (ascii_dec "." c) as [<-|N].
    + simpl. destruct (ascii_dec "." d) as [<-|N'].
      * now rewrite prefix_nil.
      * apply not_eq_sym in N'. apply Ascii.eqb_neq in N'. now rewrite N'.
    + apply not_eq_sym in N. apply Ascii.eqb_neq in N. now rewrite N.
Qed.

(** Removing the pairs of dots once leaves no pair of dots. *)
Lemma removeDotDot_no_dotdot (s : string) :
  occurs ".." (removeDotDot s) = false.
Proof.
  induction s as [s IH] using string_length_ind.
  destruct (removeDotDot_cases s) as [(s' & -> & E) | [-> | (c & s' & -> & P & E)]].
  - rewrite E. apply IH. simpl. lia.
  - reflexivity.
  - rewrite E. change ".." with (String "." (String "." "")).
    rewrite occurs_pair. change (String "." (String "." "")) with "..".
    rewrite (IH s') by (simpl; lia). rewrite orb_false_r.
    rewrite prefix_dotdot in P.
    destruct (Ascii.eqb c "."); [|reflexivity]. simpl in *.
    destruct (head_is "." (removeDotDot s')) eqn:H; [|reflexivity].
    apply removeDotDot_head in H. congruence.
Qed.

Lemma removeDotDot_fixed (s : string) :
  occurs ".." s = false -> removeDotDot s = s.
Proof.
  induction s as [|c s IH]; [reflexivity|].
  intros H. apply occurs_cons in H as [P H].
  now rewrite (removeDotDot_skip c s P), (IH H).
Qed.

Lemma squeeze_in (p : ascii -> bool) (rep : string) c s :
  p c = true ->
  squeeze p rep (String c s) =
  match s with
  | String d _ => if p d then squeeze p rep s else rep ++ squeeze p rep s
  | EmptyString => rep
  end.
Proof. intros H. cbn [squeeze]. now rewrite H. Qed.

Lemma squeeze_slash_head (c : ascii) (s : string) :
  is_slash c = true -> head_is "/" (squeeze is_slash "/" (String c s)) = true.
Proof.
  revert c. induction s as [|d s IH]; intros c Hc; rewrite (squeeze_in _ _ c _ Hc).
  - reflexivity.
  - destruct (is_slash d) eqn:Hd; [|reflexivity]. now apply IH.
Qed.

Lemma squeeze_head (c : ascii) (s : string) :
  is_slash c = false ->
  head_is c (squeeze is_slash "/" s) = head_is c s.
Proof.
  intros Hc. destruct s as [|x s]; [reflexivity|].
  destruct (is_slash x) eqn:Hx.
  - pose proof (squeeze_slash_head x s Hx) as H.
    destruct (squeeze is_slash "/" (String x s)) as [|y t]; [discriminate|].
    simpl in H. apply Ascii.eqb_eq in H. subst y.
    unfold is_slash in Hx. apply Ascii.eqb_eq in Hx. subst x.
    reflexivity.
  - now rewrite squeeze_skip.
Qed.

Lemma squeeze_slash_head_inv (s : string) :
  head_is "/" (squeeze is_slash "/" s) = true -> head_is "/" s = true.
Proof.
  destruct s as [|x s]; [trivial|].
  destruct (is_slash x) eqn:Hx; [intros _; exact Hx|].
  now rewrite squeeze_skip.
Qed.

(** Collapsing the runs of slashes leaves no pair of slashes and adds no
    pair of dots. *)
Lemma squeeze_no_double_slash (s : string) :
  occurs "//" (squeeze is_slash "/" s) = false.
Proof.
  induction s as [|c s IH]; [reflexivity|].
  destruct (is_slash c) eqn:Hc.
  - rewrite (squeeze_in _ _ c _ Hc). destruct s as [|d s]; [reflexivity|].
    destruct (is_slash d) eqn:Hd; [exact IH|].
    change ("/" ++ squeeze is_slash "/" (String d s))
      with (String "/" (squeeze is_slash "/" (String d s))).
    change "//" with (String "/" (String "/" "")).
    rewrite occurs_pair. change (String "/" (String "/" "")) with "//".
    rewrite IH, orb_false_r. rewrite squeeze_skip by exact Hd.
    simpl. exact Hd.
  - rewrite squeeze_skip by exact Hc.
    change "//" with (String "/" (String "/" "")).
    rewrite occurs_pair. change (String "/" (String "/" "")) with "//".
    rewrite IH, orb_false_r. unfold is_slash in Hc. now rewrite Hc.
Qed.

Lemma squeeze_no_dotdot (s : string) :
  occurs ".." s = false -> occurs ".." (squeeze is_slash "/" s) = false.
Proof.
  induction s as [|c s IH]; [trivial|].
  change ".." with (String "." (String "." "")).
  rewrite occurs_pair. change (String "." (String "." "")) with "..".
  intros H. apply orb_false_elim in H as [Hh Hs]. specialize (IH Hs).
  destruct (is_slash c) eqn:Hc.
  - rewrite (squeeze_in _ _ c _ Hc). destruct s as [|d s]; [reflexivity|].
    destruct (is_slash d) eqn:Hd; [exact IH|].
    change ("/" ++ squeeze is_slash "/" (String d s))
      with (String "/" (squeeze is_slash "/" (String d s))).
    change ".." with (String "." (String "." "")).
    rewrite occurs_pair. change (String "." (String "." "")) with "..".
    now rewrite IH.
  - rewrite squeeze_skip by exact Hc.
    change ".." with (String "." (String "." "")).
    rewrite occurs_pair. change (String "." (String "." "")) with "..".
    now rewrite IH, orb_false_r, (squeeze_head "." s eq_refl).
Qed.

Lemma squeeze_slash_fixed (s : string) :
  occurs "//" s = false -> squeeze is_slash "/" s = s.
Proof.
  induction s as [|c s IH]; [reflexivity|].
  change "//" with (String "/" (String "/" "")).
  rewrite occurs_pair. change (String "/" (String "/" "")) with "//".
  intros H. apply orb_false_elim in H as [Hh Hs]. specialize (IH Hs).
  simpl. destruct (is_slash c) eqn:Hc.
  - unfold is_slash in Hc. rewrite Hc in Hh. simpl in Hh.
    apply Ascii.eqb_eq in Hc. subst c.
    destruct s as [|d s]; [reflexivity|].
    simpl in Hh. unfold is_slash at 1. rewrite Hh. now rewrite IH.
  - now rewrite IH.
Qed.

(** X8: whatever the input, the path [sanitizePath] returns contains no
    pair of dots: one pass of the removal is enough, because removing a
    pair never brings two dots together. *)
Theorem sanitizePath_has_no_dotdot (path : string) :
  exists clean, sanitizePath path = Ok clean /\ occurs ".." clean = false.
Proof.
  exists (cleanPath path). split; [apply sanitizePath_eq|].
  apply occurs_trim, squeeze_no_dotdot, removeDotDot_no_dotdot.
Qed.

(** X9: the path [sanitizePath] returns has no two slashes in a row and no
    white space at either end. *)
Theorem sanitizePath_is_normalized (path : string) :
  exists clean,
    sanitizePath path = Ok clean /\
    occurs "//" clean = false /\ trim clean = clean.
Proof.
  exists (cleanPath path). split; [apply sanitizePath_eq|]. split.
  - apply occurs_trim, squeeze_no_double_slash.
  - apply trim_idempotent.
Qed.

(** X10: a path without pair of dots, without two slashes in a row and
    without outer white space is returned as it is; absolute paths,
    single-dot segments and backslashes pass unchanged. *)
Theorem sanitizePath_keeps_clean_paths (path : string) :
  occurs ".." path = false -> occurs "//" path = false -> trim path = path ->
  sanitizePath path = Ok path.
Proof.
  intros Hd Hs Ht. rewrite sanitizePath_eq. unfold cleanPath.
  now rewrite (removeDotDot_fixed path Hd), (squeeze_slash_fixed path Hs), Ht.
Qed.

Lemma sanitizePath_keeps_clean_paths_witness :
  let path := "/etc/./passwd\x" in
  occurs ".." path = false /\ occurs "//" path = false /\ trim path = path /\
  sanitizePath path = Ok path.
Proof.
  intros path. refine (conj eq_refl (conj eq_refl (conj eq_refl _))).
  exact (sanitizePath_keeps_clean_paths path eq_refl eq_refl eq_refl).
Defined.

(** X11: [sanitizePath] is idempotent. *)
Theorem sanitizePath_idempotent (path clean : string) :
  sanitizePath path = Ok clean -> sanitizePath clean = Ok clean.
Proof.
  rewrite sanitizePath_eq. intros H. injection H as <-.
  assert (Hd : occurs ".." (cleanPath path) = false)
    by apply occurs_trim, squeeze_no_dotdot, removeDotDot_no_dotdot.
  assert (Hs : occurs "//" (cleanPath path) = false)
    by apply occurs_trim, squeeze_no_double_slash.
  assert (Ht : trim (cleanPath path) = cleanPath path)
    by apply trim_idempotent.
  rewrite sanitizePath_eq. f_equal. unfold cleanPath at 1.
  now rewrite (removeDotDot_fixed _ Hd), (squeeze_slash_fixed _ Hs), Ht.
Qed.

Lemma sanitizePath_idempotent_witness :
  sanitizePath "  ../a//b/..../c/.../d  " = Ok "/a/b/c/./d" /\
  sanitizePath "/a/b/c/./d" = Ok "/a/b/c/./d".
Proof.
  split; [reflexivity|].
  exact (sanitizePath_idempotent "  ../a//b/..../c/.../d  " "/a/b/c/./d"
           eq_refl).
Defined.

(* ================================================================= *)
(** ** Null and undefined data *)

Lemma split_cons (sep : ascii) (s : string) :
  exists k l, split sep s = k :: l.
Proof.
  induction s as [|c s (k & l & E)]; simpl; [now eexists; eexists|].
  destruct (Ascii.eqb c sep); [now eexists; eexists|].
  rewrite E. now eexists; eexists.
Qed.

Lemma fold_descend_TypeError (keys : list string) :
  fold_left descend keys TypeError = TypeError.
Proof. induction keys as [|k l IH]; simpl; auto. Qed.

Lemma getNestedValue_null (path : string) :
  getNestedValue VNull path = TypeError.
Proof.
  unfold getNestedValue. destruct (split_cons "." path) as (k & l & ->).
  simpl. apply fold_descend_TypeError.
Qed.

(** X12: [getNestedValue] guards against [undefined] only: from [null]
    every path throws, and so does a dotted path whose first segment
    resolves to [null], whereas through [undefined] it is undefined. *)
Theorem getNestedValue_through_null (data : value) (key rest : string) :
  lacks "." key = true ->
  (getNestedValue data key = Ok VNull ->
   getNestedValue data (key ++ "." ++ rest) = TypeError)
  /\ (getNestedValue data key = Ok VUndefined ->
      getNestedValue data (key ++ "." ++ rest) = Ok VUndefined)
  /\ getNestedValue VNull rest = TypeError.
Proof.
  intros Hk. rewrite (getNestedValue_dot data key rest Hk). repeat split.
  - intros ->. apply getNestedValue_null.
  - intros ->. apply getNestedValue_undefined.
  - apply getNestedValue_null.
Qed.

Lemma getNestedValue_through_null_witness :
  let data := VObj [("user", VNull); ("owner", VObj [])] in
  lacks "." "user" = true /\
  getNestedValue data "user" = Ok VNull /\
  getNestedValue data "user.name" = TypeError /\
  getNestedValue data "owner.name.first" = Ok VUndefined.
Proof.
  intros data. refine (conj eq_refl (conj eq_refl (conj _ eq_refl))).
  exact (proj1 (getNestedValue_through_null data "user" "name" eq_refl)
               eq_refl).
Defined.

Section GlobalReplaceOutcomes.

Context {M : Type}.
Variable exec : string -> option (M * string * string).
Variable replacer : string -> M -> string -> string -> result string.
Hypothesis exec_sound : forall s m matched rest,
    exec s = Some (m, matched, rest) -> s = matched ++ rest /\ matched <> "".

(** The scan fails only as a replacement does: an outcome that no
    replacement has is not the outcome of the scan.  In particular the
    budget of the scan is never exhausted. *)
Lemma replace_at_avoids (e : result string) :
  (forall out, e <> Ok out) ->
  (forall b m matched rest, replacer b m matched rest <> e) ->
  forall s b, replace_at exec replacer b s <> e.
Proof.
  intros He Hr s. induction s as [s IH] using string_length_ind. intros b.
  destruct s as [|c s']; [intros E; symmetry in E; now apply He in E|].
  destruct (exec (String c s')) as [[[m matched] rest]|] eqn:E.
  - rewrite (replace_at_match exec replacer exec_sound _ _ _ _ _ E).
    pose proof (Hr b m matched rest) as H1.
    pose proof (IH rest (exec_shrinks exec exec_sound _ _ _ _ E) (b ++ matched))
      as H2.
    destruct (replacer b m matched rest) as [r| | |]; simpl; try exact H1.
    destruct (replace_at exec replacer (b ++ matched) rest) as [out| | |];
      simpl; try exact H2.
    intros F; symmetry in F; now apply He in F.
  - rewrite (replace_at_skip exec replacer _ _ _ E).
    pose proof (IH s' (Nat.lt_succ_diag_r _) (b ++ String c "")) as H2.
    destruct (replace_at exec replacer (b ++ String c "") s') as [out| | |];
      simpl; try exact H2.
    intros F; symmetry in F; now apply He in F.
Qed.

(** A replacer that answers the matched text leaves the string as it
    is. *)
Lemma replace_at_identity :
  (forall b m matched rest, replacer b m matched rest = Ok matched) ->
  forall s b, replace_at exec replacer b s = Ok s.
Proof.
  intros Hr s. induction s as [s IH] using string_length_ind. intros b.
  destruct s as [|c s']; [reflexivity|].
  destruct (exec (String c s')) as [[[m matched] rest]|] eqn:E.
  - rewrite (replace_at_match exec replacer exec_sound _ _ _ _ _ E).
    rewrite Hr, (IH rest (exec_shrinks exec exec_sound _ _ _ _ E)).
    simpl. now rewrite (proj1 (exec_sound _ _ _ _ E)).
  - rewrite (replace_at_skip exec replacer _ _ _ E).
    now rewrite (IH s' (Nat.lt_succ_diag_r _)).
Qed.

End GlobalReplaceOutcomes.

Lemma ToString_in_budget (v : value) : ToString v <> OutOfFuel.
Proof.
  induction v as [| |b|z|s|items IH|props IH|name] using value_ind;
    simpl; try discriminate.
  - now destruct b.
  - unfold NumberToString. now destruct (is_safe_integer z).
  - induction IH as [|x rest Hx Hrest IHrest]; [discriminate|].
    assert (Ex : match x with
                 | VUndefined | VNull => Ok ""
                 | _ => ToString x
                 end <> OutOfFuel) by (destruct x; try discriminate; exact Hx).
    destruct (match x with
              | VUndefined | VNull => Ok ""
              | _ => ToString x
              end) as [a| | |]; simpl; try congruence.
    destruct rest as [|y rest]; [discriminate|].
    revert IHrest.
    match goal with
    | |- ?j <> _ -> _ => destruct j; simpl; congruence
    end.
  - now destruct (has_own "toString" props).
Qed.

Lemma Get_in_budget (v : value) (key : string) : Get v key <> OutOfFuel.
Proof.
  unfold Get, not_own, inherited_from_object.
  destruct v as [| |b|z|s|items|props|name]; try discriminate.
  - now destruct (method_like key).
  - now destruct (method_like key).
  - destruct (String.eqb key "length"); [discriminate|].
    destruct (index_of_key key) as [i|].
    + now destruct (String.get i s).
    + now destruct (method_like key).
  - destruct (String.eqb key "length"); [discriminate|].
    destruct (index_of_key key) as [i|].
    + now destruct (nth_error items i).
    + now destruct (method_like key).
  - destruct (own key props); [discriminate|].
    destruct (String.eqb key "__proto__"); [discriminate|].
    now destruct (existsb (String.eqb key) objectPrototypeMethods).
Qed.

Lemma fold_descend_in_budget (keys : list string) : forall r,
  r <> OutOfFuel -> fold_left descend keys r <> OutOfFuel.
Proof.
  induction keys as [|k l IH]; intros r Hr; [exact Hr|].
  simpl. apply IH. destruct r as [v| | |]; simpl; try congruence.
  destruct (is_undefined v); [discriminate | apply Get_in_budget].
Qed.

Lemma substitute_in_budget data matched path :
  substitute data matched path <> OutOfFuel.
Proof.
  unfold substitute.
  pose proof (fold_descend_in_budget (split "." path) (Ok data)
                ltac:(discriminate)) as H.
  fold (getNestedValue data path) in H.
  destruct (getNestedValue data path) as [v| | |]; simpl; try congruence.
  destruct (is_undefined v); [discriminate | apply ToString_in_budget].
Qed.

Lemma replaceSimpleVariables_in_budget template data :
  replaceSimpleVariables template data <> OutOfFuel.
Proof.
  unfold replaceSimpleVariables, replace_global.
  apply (replace_at_avoids simplePattern _ simplePattern_sound);
    [discriminate|].
  intros. apply substitute_in_budget.
Qed.

(** From [null] every lookup throws, so the simple-substitution pass
    returns or throws. *)
Lemma replaceSimpleVariables_null (template : string) :
  is_Ok (replaceSimpleVariables template VNull) \/
  replaceSimpleVariables template VNull = TypeError.
Proof.
  pose proof (replaceSimpleVariables_in_budget template VNull) as H1.
  assert (H2 : replaceSimpleVariables template VNull <> Beyond).
  { unfold replaceSimpleVariables, replace_global.
    apply (replace_at_avoids simplePattern _ simplePattern_sound);
      [discriminate|].
    intros b m matched rest. unfold substitute.
    now rewrite getNestedValue_null. }
  destruct (replaceSimpleVariables template VNull) as [out| | |];
    [left; now eexists | now right | congruence | congruence].
Qed.

(** On [null] a text with a placeholder throws. *)
Lemma replaceSimpleVariables_null_marker (pre path post : string) :
  path <> "" -> forallb_string is_path_char path = true ->
  replaceSimpleVariables (pre ++ "{{" ++ path ++ "}}" ++ post) VNull =
  TypeError.
Proof.
  intros Hne Hp.
  rewrite (replaceSimpleVariables_marker pre path post VNull Hne Hp).
  unfold substitute. rewrite getNestedValue_null.
  now destruct (replaceSimpleVariables_null pre) as [[out ->]| ->].
Qed.

(** X13: with [null] for data, a template with a placeholder outside any
    section makes [replaceVariables] throw, whatever else it contains. *)
Theorem replaceVariables_null_data_throws (pre path post : string) :
  no_section_start pre = true -> no_section_start post = true ->
  path <> "" -> forallb_string is_path_char path = true ->
  replaceVariables (pre ++ "{{" ++ path ++ "}}" ++ post) VNull = TypeError.
Proof.
  intros Hpre Hpost Hne Hp.
  rewrite replaceVariables_no_start
    by now apply no_section_start_placeholder.
  now apply replaceSimpleVariables_null_marker.
Qed.

Lemma replaceVariables_null_data_throws_witness :
  no_section_start "<h1>" = true /\ no_section_start "</h1>" = true /\
  "title" <> "" /\ forallb_string is_path_char "title" = true /\
  replaceVariables "<h1>{{title}}</h1>" VNull = TypeError.
Proof.
  refine (conj eq_refl (conj eq_refl (conj _ (conj eq_refl _))));
    [discriminate|].
  exact (replaceVariables_null_data_throws "<h1>" "title" "</h1>"
           eq_refl eq_refl (fun E => String_neq_Empty E) eq_refl).
Defined.

(** X14: with [undefined] for data, as when the argument is left out,
    nothing throws: every section is replaced by the empty string and the
    simple-substitution pass returns its input, every placeholder kept. *)
Theorem replaceVariables_undefined_data (template : string) :
  replaceSimpleVariables template VUndefined = Ok template
  /\ (forall name body, expandSection VUndefined name body = Ok "")
  /\ replaceVariables template VUndefined = expandSections template VUndefined
  /\ exists out, replaceVariables template VUndefined = Ok out.
Proof.
  assert (P2 : forall t, replaceSimpleVariables t VUndefined = Ok t).
  { intros t. unfold replaceSimpleVariables, replace_global.
    apply (replace_at_identity simplePattern _ simplePattern_sound).
    intros b m matched rest. unfold substitute.
    now rewrite getNestedValue_undefined. }
  assert (P1 : forall name body, expandSection VUndefined name body = Ok "").
  { intros name body. unfold expandSection.
    now rewrite getNestedValue_undefined. }
  assert (E : replaceVariables template VUndefined =
              expandSections template VUndefined).
  { unfold replaceVariables.
    destruct (expandSections template VUndefined) as [r| | |]; simpl;
      [apply P2 | reflexivity | reflexivity | reflexivity]. }
  repeat split; [apply P2 | apply P1 | exact E |].
  rewrite E. unfold expandSections, replace_global.
  apply (replace_at_total arrayPattern _ arrayPattern_sound).
  intros b m matched rest. exists "". apply P1.
Qed.

(* ================================================================= *)
(** ** The elements of a section *)

Lemma map_result_app {A B : Type} (f : A -> result B) (xs ys : list A) :
  map_result f (xs ++ ys)%list =
  (a <- map_result f xs ;; b <- map_result f ys ;; Ok (a ++ b)%list).
Proof.
  induction xs as [|x xs IH]; simpl.
  - now destruct (map_result f ys).
  - destruct (f x) as [y| | |]; simpl; try reflexivity.
    rewrite IH. destruct (map_result f xs) as [a| | |]; simpl; try reflexivity.
    now destruct (map_result f ys).
Qed.

Lemma join_empty_app (a b : list string) :
  join_empty (a ++ b)%list = join_empty a ++ join_empty b.
Proof.
  induction a as [|x a IH]; simpl; [reflexivity|].
  now rewrite IH, append_assoc.
Qed.

(** X15: the elements of a section are rendered one by one and their
    texts put together in order with nothing between them: an empty
    sequence gives the empty string, a sequence of one element the
    rendering of that element, and two sequences one after the other the
    two expansions one after the other. *)
Theorem section_expansion_is_elementwise
        (data dataLeft dataRight : value) (name body : string)
        (left right : list value) :
  getNestedValue dataLeft name = Ok (VArr left) ->
  getNestedValue dataRight name = Ok (VArr right) ->
  getNestedValue data name = Ok (VArr (left ++ right)%list) ->
  expandSection data name body =
    (a <- expandSection dataLeft name body ;;
     b <- expandSection dataRight name body ;;
     Ok (a ++ b))
  /\ (left = [] -> expandSection dataLeft name body = Ok "")
  /\ (forall item, left = [item] ->
      expandSection dataLeft name body = renderItem body item).
Proof.
  intros Hl Hr Hd. unfold expandSection. rewrite Hl, Hr, Hd. cbn [bind].
  repeat split.
  - rewrite map_result_app.
    destruct (map_result (renderItem body) left) as [a| | |]; cbn [bind];
      try reflexivity.
    destruct (map_result (renderItem body) right) as [b| | |]; cbn [bind];
      try reflexivity.
    now rewrite join_empty_app.
  - now intros ->.
  - intros item ->. simpl.
    destruct (renderItem body item) as [r| | |]; simpl; try reflexivity.
    now rewrite append_nil_r.
Qed.

Lemma section_expansion_is_elementwise_witness :
  let data := VObj [("tags", VArr [VStr "a"; VStr "b"; VStr "c"])] in
  let dataLeft := VObj [("tags", VArr [VStr "a"])] in
  let dataRight := VObj [("tags", VArr [VStr "b"; VStr "c"])] in
  getNestedValue dataLeft "tags" = Ok (VArr [VStr "a"]) /\
  getNestedValue dataRight "tags" = Ok (VArr [VStr "b"; VStr "c"]) /\
  getNestedValue data "tags" = Ok (VArr ([VStr "a"] ++ [VStr "b"; VStr "c"])%list) /\
  expandSection data "tags" "<i>{{.}}</i>" = Ok "<i>a</i><i>b</i><i>c</i>" /\
  expandSection data "tags" "<i>{{.}}</i>" =
    (a <- expandSection dataLeft "tags" "<i>{{.}}</i>" ;;
     b <- expandSection dataRight "tags" "<i>{{.}}</i>" ;;
     Ok (a ++ b)).
Proof.
  intros data dataLeft dataRight.
  refine (conj eq_refl (conj eq_refl (conj eq_refl (conj eq_refl _)))).
  exact (proj1 (section_expansion_is_elementwise data dataLeft dataRight
                  "tags" "<i>{{.}}</i>" [VStr "a"] [VStr "b"; VStr "c"]
                  eq_refl eq_refl eq_refl)).
Defined.

Lemma renderItem_plain (body : string) (item : value) (rep : string) :
  lacks "{" body = true -> ToString item = Ok rep ->
  renderItem body item = Ok body.
Proof.
  intros Hb Hi. unfold renderItem. rewrite Hi. cbn [bind].
  rewrite (replaceSelf_absent body rep (lacks_occurs _ body Hb)). cbn [bind].
  destruct (typeof_object item); [|reflexivity].
  now apply replaceSimpleVariables_plain.
Qed.

(** X16: a section body without opening brace is written once for every
    element of the sequence, whatever the elements are, as long as each
    of them has a string conversion. *)
Theorem section_repeats_plain_body
        (data : value) (name body : string) (items : list value) :
  getNestedValue data name = Ok (VArr items) ->
  lacks "{" body = true ->
  Forall (fun item => is_Ok (ToString item)) items ->
  expandSection data name body = Ok (repeat_string (List.length items) body).
Proof.
  intros Hd Hb Hi. unfold expandSection. rewrite Hd. cbn [bind].
  assert (E : map_result (renderItem body) items =
              Ok (map (fun _ => body) items)).
  { clear Hd. induction Hi as [|x rest [rep Hx] _ IH]; [reflexivity|].
    simpl. rewrite (renderItem_plain body x rep Hb Hx), IH. reflexivity. }
  rewrite E. cbn [bind]. f_equal. clear.
  induction items as [|x rest IH]; simpl; [reflexivity | now rewrite IH].
Qed.

Lemma section_repeats_plain_body_witness :
  let items := [VNum 1; VNull; VObj [("k", VStr "v")]; VArr []] in
  let data := VObj [("rows", VArr items)] in
  getNestedValue data "rows" = Ok (VArr items) /\
  lacks "{" "<hr>" = true /\
  expandSection data "rows" "<hr>" = Ok "<hr><hr><hr><hr>".
Proof.
  intros items data. refine (conj eq_refl (conj eq_refl _)).
  apply (section_repeats_plain_body data "rows" "<hr>" items eq_refl eq_refl).
  unfold items. repeat (apply Forall_cons; [eexists; reflexivity|]).
  apply Forall_nil.
Defined.

Lemma replaceSelf_in_budget body rep : replaceSelf body rep <> OutOfFuel.
Proof.
  destruct (replaceSelf_total body rep) as [r ->]. discriminate.
Qed.





(* ================================================================= *)
(** ** The configuration and its rendering *)

Lemma generateDemoConfig_eq (inputs config : value) :
  generateDemoConfig inputs = Ok config ->
  exists companyName industry writeKey apiToken spaceId,
    Get inputs "companyName" = Ok companyName /\
    Get inputs "industry" = Ok industry /\
    Get inputs "writeKey" = Ok writeKey /\
    Get inputs "apiToken" = Ok apiToken /\
    Get inputs "spaceId" = Ok spaceId /\
    config = VObj [("companyName", companyName);
                   ("industry", industry);
                   ("writeKey", writeKey);
                   ("apiToken", apiToken);
                   ("spaceId", spaceId);
                   ("products", VArr []);
                   ("events", VObj []);
                   ("traits", VObj []);
                   ("navigation", VArr []);
                   ("messaging", VObj []);
                   ("colors", VObj [("primary", VStr "#6B8CAE");
                                    ("accent", VStr "#52BD95");
                                    ("dark", VStr "#2d3748")])].
Proof.
  unfold generateDemoConfig. intros H.
  destruct (Get inputs "companyName") as [v1| | |]; try discriminate.
  destruct (Get inputs "industry") as [v2| | |]; try discriminate.
  destruct (Get inputs "writeKey") as [v3| | |]; try discriminate.
  destruct (Get inputs "apiToken") as [v4| | |]; try discriminate.
  destruct (Get inputs "spaceId") as [v5| | |]; try discriminate.
  cbn [bind] in H. injection H as <-.
  exists v1, v2, v3, v4, v5. repeat split.
Qed.

Lemma copiedFields_path (field : string) :
  In field copiedFields ->
  field <> "" /\ forallb_string is_path_char field = true.
Proof.
  intros H. repeat destruct H as [<-|H]; try contradiction;
    (split; [discriminate | reflexivity]).
Qed.

Lemma generateDemoConfig_copies (inputs config : value) (field : string) :
  generateDemoConfig inputs = Ok config -> In field copiedFields ->
  exists v, Get inputs field = Ok v /\ getNestedValue config field = Ok v.
Proof.
  intros G H.
  destruct (generateDemoConfig_eq inputs config G)
    as (v1 & v2 & v3 & v4 & v5 & E1 & E2 & E3 & E4 & E5 & ->).
  repeat destruct H as [<-|H]; try contradiction; eexists; split;
    try eassumption; reflexivity.
Qed.

(** X18: what was entered for the company name, the industry, the write
    key, the API token and the space id reaches a placeholder of that
    name letter for letter, whatever characters it holds. *)
Theorem copied_field_is_rendered
        (inputs config : value) (field text pre post : string) :
  generateDemoConfig inputs = Ok config ->
  In field copiedFields ->
  Get inputs field = Ok (VStr text) ->
  no_section_start pre = true -> no_section_start post = true ->
  replaceVariables (pre ++ "{{" ++ field ++ "}}" ++ post) config =
  (a <- replaceSimpleVariables pre config ;;
   b <- replaceSimpleVariables post config ;;
   Ok (a ++ text ++ b)).
Proof.
  intros G Hin Ht Hpre Hpost.
  destruct (copiedFields_path field Hin) as [Hne Hp].
  destruct (generateDemoConfig_copies inputs config field G Hin)
    as (v & Ev & Ec).
  rewrite Ht in Ev. injection Ev as <-.
  rewrite replaceVariables_no_start
    by now apply no_section_start_placeholder.
  rewrite (replaceSimpleVariables_marker pre field post config Hne Hp).
  unfold substitute. rewrite Ec. reflexivity.
Qed.

Lemma copied_field_is_rendered_witness :
  let inputs := VObj [("companyName", VStr "A&B {{x}} $1");
                      ("companyNameSlug", VStr "ab-x-1");
                      ("industry", VStr "Travel");
                      ("writeKey", VStr "abcdefghijklmnopqrstuvwxyz");
                      ("apiToken", VStr "token");
                      ("spaceId", VStr "spa_1")] in
  exists config,
    generateDemoConfig inputs = Ok config /\
    In "companyName" copiedFields /\
    Get inputs "companyName" = Ok (VStr "A&B {{x}} $1") /\
    no_section_start "<h1>" = true /\ no_section_start "</h1>" = true /\
    replaceVariables "<h1>{{companyName}}</h1>" config =
    Ok "<h1>A&B {{x}} $1</h1>".
Proof.
  intros inputs. eexists.
  refine (conj eq_refl (conj (or_introl eq_refl) (conj eq_refl
            (conj eq_refl (conj eq_refl _))))).
  exact (copied_field_is_rendered inputs _ "companyName" "A&B {{x}} $1"
           "<h1>" "</h1>" eq_refl (or_introl eq_refl) eq_refl
           eq_refl eq_refl).
Defined.

(** X19: the configuration holds no generated content: a section named
    after one of the five collections is replaced by the empty string
    whatever its body and whatever the inputs, and the three colours are
    the fixed ones. *)
Theorem generated_collections_render_empty
        (inputs config : value) (name pre body post : string) :
  generateDemoConfig inputs = Ok config ->
  In name generatedCollections ->
  no_section_start pre = true ->
  occurs (closer name) body = false ->
  expandSection config name body = Ok ""
  /\ replaceVariables
       (pre ++ "{{#" ++ name ++ "}}" ++ body ++ closer name ++ post) config =
     (t <- expandSections post config ;;
      replaceSimpleVariables (pre ++ t) config)
  /\ replaceVariables "{{colors.primary}}" config = Ok "#6B8CAE"
  /\ replaceVariables "{{colors.accent}}" config = Ok "#52BD95"
  /\ replaceVariables "{{colors.dark}}" config = Ok "#2d3748".
Proof.
  intros G Hin Hpre Ho.
  destruct (generateDemoConfig_eq inputs config G)
    as (v1 & v2 & v3 & v4 & v5 & _ & _ & _ & _ & _ & ->).
  assert (Hn : name <> "" /\ forallb_string is_word name = true).
  { repeat destruct Hin as [<-|Hin]; try contradiction;
      (split; [discriminate | reflexivity]). }
  destruct Hn as [Hne Hn].
  match goal with |- expandSection ?c _ _ = _ /\ _ => set (config := c) end.
  assert (E : expandSection config name body = Ok "").
  { repeat destruct Hin as [<-|Hin]; try contradiction; reflexivity. }
  split; [exact E|]. split.
  - unfold replaceVariables.
    rewrite (expandSections_section pre name body post config Hpre Hne Hn Ho), E.
    simpl. destruct (expandSections post config); reflexivity.
  - repeat split.
Qed.

Lemma generated_collections_render_empty_witness :
  let inputs := VObj [("companyName", VStr "Acme")] in
  let body := "<li>{{name}}: {{price}}</li>" in
  exists config,
    generateDemoConfig inputs = Ok config /\
    In "products" generatedCollections /\
    no_section_start "<ul>" = true /\
    occurs (closer "products") body = false /\
    replaceVariables
      "<ul>{{#products}}<li>{{name}}: {{price}}</li>{{/products}}</ul>" config
    = Ok "<ul></ul>".
Proof.
  intros inputs body. eexists.
  refine (conj eq_refl (conj (or_introl eq_refl) (conj eq_refl
            (conj eq_refl _)))).
  exact (proj1 (proj2 (generated_collections_render_empty inputs _ "products"
                         "<ul>" body "</ul>" eq_refl (or_introl eq_refl)
                         eq_refl eq_refl))).
Defined.



(** X21: the configuration has no entry for the slug, the model choice,
    the website and the notes of the inputs, so a placeholder of one of
    these names is written out as it stands, whatever was entered. *)
Theorem dropped_input_stays_placeholder
        (inputs config : value) (key pre post : string) :
  generateDemoConfig inputs = Ok config ->
  In key ["companyNameSlug"; "aiModel"; "website"; "notes"] ->
  no_section_start pre = true -> no_section_start post = true ->
  replaceVariables (pre ++ "{{" ++ key ++ "}}" ++ post) config =
  (a <- replaceSimpleVariables pre config ;;
   b <- replaceSimpleVariables post config ;;
   Ok (a ++ ("{{" ++ key ++ "}}") ++ b)).
Proof.
  intros G Hin Hpre Hpost.
  destruct (generateDemoConfig_eq inputs config G)
    as (v1 & v2 & v3 & v4 & v5 & _ & _ & _ & _ & _ & ->).
  assert (Hk : key <> "" /\ forallb_string is_path_char key = true).
  { repeat destruct Hin as [<-|Hin]; try contradiction;
      (split; [discriminate | reflexivity]). }
  destruct Hk as [Hne Hp].
  rewrite replaceVariables_no_start
    by now apply no_section_start_placeholder.
  rewrite (replaceSimpleVariables_marker pre key post _ Hne Hp).
  unfold substitute.
  repeat destruct Hin as [<-|Hin]; try contradiction; reflexivity.
Qed.

Lemma dropped_input_stays_placeholder_witness :
  let inputs := VObj [("companyName", VStr "Acme Travel");
                      ("companyNameSlug", VStr "acme-travel");
                      ("website", VStr "acme.example")] in
  exists config,
    generateDemoConfig inputs = Ok config /\
    In "companyNameSlug" ["companyNameSlug"; "aiModel"; "website"; "notes"] /\
    no_section_start "name: " = true /\ no_section_start "-demo" = true /\
    replaceVariables "name: {{companyNameSlug}}-demo" config =
    Ok "name: {{companyNameSlug}}-demo".
Proof.
  intros inputs. eexists.
  refine (conj eq_refl (conj (or_introl eq_refl) (conj eq_refl
            (conj eq_refl _)))).
  exact (dropped_input_stays_placeholder inputs _ "companyNameSlug"
           "name: " "-demo" eq_refl (or_introl eq_refl) eq_refl eq_refl).
Defined.
